(** * Patient Management System: the API service of [Backend/main.py]

    A shallow embedding of the FastAPI handlers, the two pydantic models and
    the JSON file they read and rewrite, followed by the properties the
    specification states about them.

    Conventions of the embedding:
    - a Python [float] is an IEEE 754 binary64 number (Rocq's primitive
      floats); a Python [int] is a [Z]; the one float operation Python
      leaves to the C library, the power, is an interface ([Libm]);
    - a Python exception is a value of [exn]; code that may raise returns an
      [outcome];
    - [patients.json] is the only state: a handler is a function from the
      file's contents to an outcome and the file's new contents;
    - a Python [dict] keeps its insertion order, so the collection is an
      association list. *)

From Stdlib Require Import ZArith Lia Bool List String Floats.
From Stdlib Require Import Sorting.Sorted Sorting.Permutation.
Import ListNotations.

Set Warnings "-inexact-float".
Open Scope string_scope.

(** ** Exceptions *)

Inductive exn : Type :=
| HTTPException (status_code : Z) (detail : string)
| TypeError
| ValidationError
| ZeroDivisionError
| OverflowError
| ValueError
| StorageError.

Inductive outcome (A : Type) : Type :=
| Ok (a : A)
| Raise (e : exn).

Arguments Ok {A} a.
Arguments Raise {A} e.

Definition obind {A B : Type} (c : outcome A) (k : A -> outcome B) : outcome B :=
  match c with
  | Ok a => k a
  | Raise e => Raise e
  end.

Definition omap {A B : Type} (f : A -> B) (c : outcome A) : outcome B :=
  obind c (fun a => Ok (f a)).

Notation "x <- c ;; k" := (obind c (fun x => k))
  (at level 61, c at next level, right associativity).

(** ** The C library

    Python hands a float power to the C library's [pow]. [c_pow2 x] is
    [pow(x, 2.0)] for a finite [x > 0]: a double at most one unit in the
    last place away from the correctly rounded square (glibc documents an
    error below one unit; its result differs from [x * x] on some inputs).
    The library is taken to report a range error for an overflow and for an
    underflow to zero only, so that Python raises exactly when the result is
    infinite. *)
Class Libm : Type := {
  c_pow2 : float -> float;
  c_pow2_accurate :
    forall x : float,
      c_pow2 x = next_down (x * x) \/ c_pow2 x = (x * x)%float
      \/ c_pow2 x = next_up (x * x)
}.

(** A library whose [pow(x, 2.0)] is the correctly rounded square; the
    sample evaluations below run on it. *)
#[export] Instance exact_libm : Libm := {|
  c_pow2 := fun x => (x * x)%float;
  c_pow2_accurate := fun x => or_intror (or_introl eq_refl)
|}.

(** ** Python's float operations used by the models *)

Module Py.

(** [x ** 2] on a float ([float_pow] with the exponent 2): NaN, the
    infinities, zero and 1 are answered before the C library is asked; the
    library is asked for the square of the absolute value, and an infinite
    result raises [OverflowError]; a square that underflows is returned as
    it is. *)
Definition pow2 {L : Libm} (x : float) : outcome float :=
  if is_nan x then Ok x
  else if is_infinity x then Ok (abs x)
  else if (x =? 0)%float then Ok 0%float
  else
    let a := abs x in
    if (a =? 1)%float then Ok 1%float
    else
      let r := c_pow2 a in
      if is_infinity r then Raise OverflowError else Ok r.

(** [a / b] on floats: a zero divisor raises, anything else is IEEE division. *)
Definition truediv (a b : float) : outcome float :=
  if (b =? 0)%float then Raise ZeroDivisionError else Ok (a / b)%float.

(** The double nearest to the ratio [n / d] of two positive integers. *)
Definition nearest_ratio (n d : positive) : float :=
  SF2Prim (SFdiv prec emax (S754_finite false n 0) (S754_finite false d 0)).

(** [round(x, 2)]: non-finite values and zeros round to themselves; a finite
    [x = m * 2^e] is rounded, as the exact binary value it is, to the nearest
    multiple of 1/100 (ties to the even one), and the double nearest to that
    decimal is returned. With [0 <= e] the value is an integer already. *)
Definition round2 (x : float) : float :=
  match Prim2SF x with
  | S754_finite s m e =>
      if (0 <=? e)%Z then x
      else
        let num := (100 * Zpos m)%Z in
        let den := (2 ^ (- e))%Z in
        let q := (num / den)%Z in
        let r := (num mod den)%Z in
        let n := match (2 * r ?= den)%Z with
                 | Lt => q
                 | Gt => (q + 1)%Z
                 | Eq => if Z.even q then q else (q + 1)%Z
                 end in
        match n with
        | Zpos p => let y := nearest_ratio p 100 in if s then (- y)%float else y
        | _ => if s then (- 0)%float else 0%float
        end
  | _ => x
  end.

(** A value a sort key can take: [None] or a number ([x.get(k, 0)] on a
    record whose numeric fields hold numbers or null). The integer default 0
    compares as the float zero does. *)
Inductive value : Type :=
| VNone
| VNum (f : float).

(** [a < b]: numbers compare as IEEE numbers, [None] is not ordered. *)
Definition lt (a b : value) : outcome bool :=
  match a, b with
  | VNum x, VNum y => Ok (x <? y)%float
  | _, _ => Raise TypeError
  end.

(** *** [sorted(xs, key=..., reverse=...)]

    The sort is stable and compares keys with [<] only; it is written as a
    stable insertion sort, which on keys that [<] orders answers as any
    stable sort does. With [reverse=True] the list is reversed, sorted and
    reversed again, which is how [list.sort] keeps equal keys in their
    original order. On keys that [<] does not order (a NaN among them) the
    answer of [list.sort] depends on the runs it finds and on its binary
    insertion: the general theorems on the order of a listing take numeric
    keys, and the listing evaluated below on a NaN key (12.35, NaN, 22.22,
    descending) is the one CPython returns. *)
Section Sorted.
Context {A : Type}.
Variable key : A -> value.

Fixpoint insert (x : A) (l : list A) : outcome (list A) :=
  match l with
  | [] => Ok [x]
  | y :: ys =>
      b <- lt (key y) (key x) ;;
      if b then omap (cons y) (insert x ys) else Ok (x :: y :: ys)
  end.

Fixpoint sort (l : list A) : outcome (list A) :=
  match l with
  | [] => Ok []
  | x :: xs => s <- sort xs ;; insert x s
  end.

Definition sorted (l : list A) (reverse : bool) : outcome (list A) :=
  if reverse then omap (@rev A) (sort (rev l)) else sort l.
End Sorted.

(** *** [dict] with string keys, in insertion order *)
Section Dict.
Context {V : Type}.
Definition dict := list (string * V).

Fixpoint get (k : string) (d : dict) : option V :=
  match d with
  | [] => None
  | (k', v) :: d' => if String.eqb k k' then Some v else get k d'
  end.

Definition contains (k : string) (d : dict) : bool :=
  match get k d with Some _ => true | None => false end.

(** [d[k] = v]: an existing key keeps its position, a new one goes last. *)
Fixpoint set (k : string) (v : V) (d : dict) : dict :=
  match d with
  | [] => [(k, v)]
  | (k', v') :: d' =>
      if String.eqb k k' then (k', v) :: d' else (k', v') :: set k v d'
  end.

(** [del d[k]]; the keys of a dict are unique. *)
Definition del (k : string) (d : dict) : dict :=
  filter (fun kv => negb (String.eqb k (fst kv))) d.

Definition values (d : dict) : list V := map snd d.
Definition keys (d : dict) : list string := map fst d.
End Dict.
Arguments dict V : clear implicits.

End Py.

(** ** Records as they sit in [patients.json] and in request bodies

    A record is a JSON object. Each of the nine keys the service reads or
    writes is absent, [null], or holds a value of the JSON type
    [model_dump] writes for it. *)

Inductive cell (A : Type) : Type :=
| Absent
| Null
| Has (a : A).

Arguments Absent {A}.
Arguments Null {A}.
Arguments Has {A} a.

Record pdict : Type := mk_pdict {
  k_id : cell string;
  k_name : cell string;
  k_city : cell string;
  k_age : cell Z;
  k_gender : cell string;
  k_height : cell float;
  k_weight : cell float;
  k_bmi : cell float;
  k_verdict : cell string
}.

(** The entry of a record under a key of [valid_fields]. *)
Definition num_cell (x : pdict) (key : string) : cell float :=
  if String.eqb key "height" then k_height x
  else if String.eqb key "weight" then k_weight x
  else k_bmi x.

(** [x.get(key, 0)] for the keys of [valid_fields]. *)
Definition get_num (x : pdict) (key : string) : Py.value :=
  match num_cell x key with
  | Absent => Py.VNum 0
  | Null => Py.VNone
  | Has f => Py.VNum f
  end.

(** ** [class Patient(BaseModel)] *)

Inductive Gender : Type := male | female | other.

Definition Gender_of_string (s : string) : option Gender :=
  if String.eqb s "male" then Some male
  else if String.eqb s "female" then Some female
  else if String.eqb s "other" then Some other
  else None.

Definition Gender_to_string (g : Gender) : string :=
  match g with
  | male => "male"
  | female => "female"
  | other => "other"
  end.

Module Patient.

Record t : Type := mk {
  id : string;
  name : string;
  city : string;
  age : Z;
  gender : Gender;
  height : float;
  weight : float
}.

(** Validation of the keyword arguments (or of a request body): every field
    is required; [age] has [gt=0, lt=120], [gender] is one of the three
    literals, [height] and [weight] have [gt=0]. The keys [bmi] and
    [verdict] are not fields and are ignored. *)
Definition validate (kw : pdict) : outcome t :=
  match k_id kw, k_name kw, k_city kw, k_age kw, k_gender kw, k_height kw, k_weight kw with
  | Has i, Has n, Has c, Has a, Has g, Has h, Has w =>
      match Gender_of_string g with
      | Some g' =>
          if ((0 <? a)%Z && (a <? 120)%Z && (0 <? h)%float && (0 <? w)%float)%bool
          then Ok (mk i n c a g' h w)
          else Raise ValidationError
      | None => Raise ValidationError
      end
  | _, _, _, _, _, _, _ => Raise ValidationError
  end.

(** [Patient(id=patient_id, **kw)]: a key [id] in [kw] is a second value for
    the keyword [id], which Python refuses before pydantic sees anything. *)
Definition with_id (patient_id : string) (kw : pdict) : pdict :=
  mk_pdict (Has patient_id) (k_name kw) (k_city kw) (k_age kw)
    (k_gender kw) (k_height kw) (k_weight kw) (k_bmi kw) (k_verdict kw).

Definition init_with_id (patient_id : string) (kw : pdict) : outcome t :=
  match k_id kw with
  | Absent => validate (with_id patient_id kw)
  | _ => Raise TypeError
  end.

(** [round(self.weight / (self.height ** 2), 2)] *)
Definition bmi {L : Libm} (self : t) : outcome float :=
  sq <- Py.pow2 (height self) ;;
  q <- Py.truediv (weight self) sq ;;
  Ok (Py.round2 q).

Definition verdict {L : Libm} (self : t) : outcome string :=
  b <- bmi self ;;
  if (b <? 18.5)%float then Ok "Underweight"
  else if ((18.5 <=? b)%float && (b <? 25)%float)%bool then Ok "Normal weight"
  else if ((25 <=? b)%float && (b <? 30)%float)%bool then Ok "Overweight"
  else Ok "Obese".

(** [model_dump()]: the seven fields and the two computed ones. *)
Definition model_dump {L : Libm} (self : t) : outcome pdict :=
  b <- bmi self ;;
  v <- verdict self ;;
  Ok (mk_pdict (Has (id self)) (Has (name self)) (Has (city self)) (Has (age self))
        (Has (Gender_to_string (gender self))) (Has (height self)) (Has (weight self))
        (Has b) (Has v)).

End Patient.

(** ** [class Patient_update(BaseModel)]

    Every field is optional; a field of the request is unset ([Absent]), set
    to [null] or set to a value. *)
Module Patient_update.

Record t : Type := mk {
  name : cell string;
  city : cell string;
  age : cell Z;
  gender : cell string;
  height : cell float;
  weight : cell float
}.

Definition empty : t := mk Absent Absent Absent Absent Absent Absent.

(** The constraints bind values only: [age], [height] and [weight] have
    [gt=0] (and no upper bound), [gender] is one of the literals. *)
Definition valid (u : t) : bool :=
  match age u with Has a => (0 <? a)%Z | _ => true end
  && match gender u with
     | Has g => match Gender_of_string g with Some _ => true | None => false end
     | _ => true
     end
  && match height u with Has h => (0 <? h)%float | _ => true end
  && match weight u with Has w => (0 <? w)%float | _ => true end.

Definition validate (u : t) : outcome t :=
  if valid u then Ok u else Raise ValidationError.

End Patient_update.

(** [for key, value in updated_data.items(): existing_patient[key] = value]
    with [updated_data = patient_update.model_dump(exclude_unset=True)]: the
    fields the request set, [null] included, overwrite the record's. *)
Definition overwrite {A : Type} (new old : cell A) : cell A :=
  match new with
  | Absent => old
  | _ => new
  end.

Definition merge (u : Patient_update.t) (existing : pdict) : pdict :=
  mk_pdict (k_id existing)
    (overwrite (Patient_update.name u) (k_name existing))
    (overwrite (Patient_update.city u) (k_city existing))
    (overwrite (Patient_update.age u) (k_age existing))
    (overwrite (Patient_update.gender u) (k_gender existing))
    (overwrite (Patient_update.height u) (k_height existing))
    (overwrite (Patient_update.weight u) (k_weight existing))
    (k_bmi existing) (k_verdict existing).

(** ** The file and the handlers *)

Definition patients : Type := Py.dict pdict.

(** The contents of [patients.json], a JSON object of records; [None] when
    the file is missing or does not parse. *)
Definition file : Type := option patients.

Definition io (A : Type) : Type := file -> outcome A * file.

Definition io_ret {A : Type} (a : A) : io A := fun f => (Ok a, f).

Definition io_raise {A : Type} (e : exn) : io A := fun f => (Raise e, f).

Definition io_bind {A B : Type} (c : io A) (k : A -> io B) : io B :=
  fun f =>
    match c f with
    | (Ok a, f') => k a f'
    | (Raise e, f') => (Raise e, f')
    end.

Definition io_lift {A : Type} (c : outcome A) : io A := fun f => (c, f).

Notation "x <~ c ;; k" := (io_bind c (fun x => k))
  (at level 61, c at next level, right associativity).

Definition load_data : io patients :=
  fun f =>
    match f with
    | Some data => (Ok data, f)
    | None => (Raise StorageError, f)
    end.

Definition save_data (data : patients) : io unit :=
  fun _ => (Ok tt, Some data).

(** The JSON values the handlers return. *)
Inductive content : Type :=
| Message (message : string)
| Created (message : string) (patient_id : string)
| Record_ (r : pdict)
| Collection (data : patients)
| Sequence (l : list pdict).

(** A handler returns a value, which FastAPI sends with status 200, or a
    [JSONResponse] with a status of its own. *)
Inductive returned : Type :=
| Value (c : content)
| JSONResponse (status_code : Z) (c : content).

Definition hello : io returned :=
  io_ret (Value (Message "Patient Management System API")).

Definition about : io returned :=
  io_ret (Value (Message "This is a Patient Management System API built with FastAPI")).

Definition view : io returned :=
  data <~ load_data ;;
  io_ret (Value (Collection data)).

Definition view_patient (patient_id : string) : io returned :=
  data <~ load_data ;;
  match Py.get patient_id data with
  | Some r => io_ret (Value (Record_ r))
  | None => io_raise (HTTPException 404 "Patient not found")
  end.

Definition valid_fields : list string := ["height"; "weight"; "bmi"].

Definition str_in (s : string) (l : list string) : bool :=
  existsb (String.eqb s) l.

Definition sort_patients (sort_by order : string) : io returned :=
  if negb (str_in sort_by valid_fields) then
    io_raise (HTTPException 400
      "Invalid sort field. Must be one of ['height', 'weight', 'bmi']")
  else if negb (str_in order ["asc"; "desc"]) then
    io_raise (HTTPException 400 "Invalid order. Must be 'asc' or 'desc'")
  else
    data <~ load_data ;;
    let sort_order := if String.eqb order "desc" then true else false in
    sorted_data <~ io_lift
      (Py.sorted (fun x => get_num x sort_by) (Py.values data) sort_order) ;;
    io_ret (Value (Sequence sorted_data)).

Definition create_patient {L : Libm} (patient : Patient.t) : io returned :=
  data <~ load_data ;;
  if Py.contains (Patient.id patient) data then
    io_raise (HTTPException 400 "Patient with this ID already exists")
  else
    dumped <~ io_lift (Patient.model_dump patient) ;;
    _ <~ save_data (Py.set (Patient.id patient) dumped data) ;;
    io_ret (JSONResponse 201
              (Created "Patient created successfully" (Patient.id patient))).

Definition update_patient {L : Libm} (patient_id : string) (patient_update : Patient_update.t)
  : io returned :=
  data <~ load_data ;;
  match Py.get patient_id data with
  | None => io_raise (HTTPException 404 "Patient not found")
  | Some existing_patient =>
      let existing_patient := merge patient_update existing_patient in
      existing_pydantic_obj <~ io_lift (Patient.init_with_id patient_id existing_patient) ;;
      existing_patient <~ io_lift (Patient.model_dump existing_pydantic_obj) ;;
      _ <~ save_data (Py.set patient_id existing_patient data) ;;
      io_ret (Value (Message "Patient updated successfully"))
  end.

Definition delete_patient (patient_id : string) : io returned :=
  data <~ load_data ;;
  if negb (Py.contains patient_id data) then
    io_raise (HTTPException 404 "Patient not found")
  else
    _ <~ save_data (Py.del patient_id data) ;;
    io_ret (JSONResponse 200 (Message "Patient deleted successfully")).

(** ** The endpoints with a request body

    FastAPI validates the request body against the handler's model and
    refuses it without calling the handler when that fails; an
    [HTTPException] becomes its status and detail; any other exception is a
    500. The two handlers served here return strings only, which are always
    rendered.

    A refusal is a 422 whose body lists pydantic's errors, each with the
    input it refused: the value of the field, or the whole body for a
    field that is missing. The body is rendered as strict JSON, which has no
    NaN and no infinity: when an error quotes such a float, rendering raises
    [ValueError] and the answer is a 500. *)

Definition finite_cell (c : cell float) : bool :=
  match c with
  | Has f => is_finite f
  | _ => true
  end.

Definition is_absent {A : Type} (c : cell A) : bool :=
  match c with
  | Absent => true
  | _ => false
  end.

(** A float field with [gt=0] has no error, or its error quotes a finite
    float. *)
Definition quoted_float_renders (c : cell float) : bool :=
  match c with
  | Has f => ((0 <? f)%float || is_finite f)%bool
  | _ => true
  end.

(** The errors of a body that [Patient] refuses can be rendered. *)
Definition Patient_errors_render (kw : pdict) : bool :=
  (if (is_absent (k_id kw) || is_absent (k_name kw) || is_absent (k_city kw)
       || is_absent (k_age kw) || is_absent (k_gender kw)
       || is_absent (k_height kw) || is_absent (k_weight kw))%bool
   then (finite_cell (k_height kw) && finite_cell (k_weight kw)
         && finite_cell (k_bmi kw))%bool
   else true)
  && quoted_float_renders (k_height kw)
  && quoted_float_renders (k_weight kw).

(** The errors of a payload that [Patient_update] refuses can be rendered. *)
Definition Patient_update_errors_render (u : Patient_update.t) : bool :=
  quoted_float_renders (Patient_update.height u)
  && quoted_float_renders (Patient_update.weight u).

Inductive body : Type :=
| Content (c : content)
| Detail (detail : string)
| Unprocessable
| ServerError (e : exn).

Record response : Type := Reply {
  status_code : Z;
  payload : body
}.

Definition serve (h : io returned) : file -> response * file :=
  fun f =>
    match h f with
    | (Ok (Value c), f') => (Reply 200 (Content c), f')
    | (Ok (JSONResponse s c), f') => (Reply s (Content c), f')
    | (Raise (HTTPException s d), f') => (Reply s (Detail d), f')
    | (Raise e, f') => (Reply 500 (ServerError e), f')
    end.

Definition refuse (renders : bool) : response :=
  if renders then Reply 422 Unprocessable else Reply 500 (ServerError ValueError).

Definition POST_create {L : Libm} (request : pdict) : file -> response * file :=
  match Patient.validate request with
  | Ok patient => serve (create_patient patient)
  | Raise _ => fun f => (refuse (Patient_errors_render request), f)
  end.

Definition PUT_edit {L : Libm} (patient_id : string) (request : Patient_update.t)
  : file -> response * file :=
  match Patient_update.validate request with
  | Ok patient_update => serve (update_patient patient_id patient_update)
  | Raise _ => fun f => (refuse (Patient_update_errors_render request), f)
  end.

(** ** Auxiliary definitions for the proofs *)

(** *** The order of the IEEE comparison

    [rank] sends a number to a triple of integers whose lexicographic order
    is the order [<] of the floats: the class (negative infinity, negative,
    zero, positive, positive infinity), then the exponent, then the
    mantissa, the last two negated for negative numbers. *)
Definition rank (x : spec_float) : Z * Z * Z :=
  match x with
  | S754_infinity true => (0, 0, 0)
  | S754_finite true m e => (1, - e, - Zpos m)
  | S754_zero _ => (2, 0, 0)
  | S754_finite false m e => (3, e, Zpos m)
  | S754_infinity false => (4, 0, 0)
  | S754_nan => (5, 0, 0)
  end%Z.

Definition lex_compare (p q : Z * Z * Z) : comparison :=
  let '(a, b, c) := p in
  let '(a', b', c') := q in
  match (a ?= a')%Z with
  | Eq => match (b ?= b')%Z with
          | Eq => (c ?= c')%Z
          | r => r
          end
  | r => r
  end.

Definition lex_lt (p q : Z * Z * Z) : Prop :=
  let '(a, b, c) := p in
  let '(a', b', c') := q in
  (a < a' \/ (a = a' /\ (b < b' \/ (b = b' /\ c < c'))))%Z.

Definition frank (f : float) : Z * Z * Z := rank (Prim2SF f).

(** A float that is a number. *)
Definition numeric (f : float) : Prop := is_nan f = false.

(** *** The sort on numeric keys

    When every key is a number no comparison raises, and [Py.sort] is the
    stable insertion sort [psort] on the keys' floats. *)
Section PureSort.
Context {A : Type}.
Variable key : A -> Py.value.

Definition knum (x : A) : float :=
  match key x with
  | Py.VNum f => f
  | Py.VNone => 0%float
  end.

Definition numkey (x : A) : Prop :=
  match key x with
  | Py.VNum f => numeric f
  | Py.VNone => False
  end.

Definition ltk (x y : A) : bool := (knum x <? knum y)%float.

Fixpoint pinsert (x : A) (l : list A) : list A :=
  match l with
  | [] => [x]
  | y :: ys => if ltk y x then y :: pinsert x ys else x :: y :: ys
  end.

Fixpoint psort (l : list A) : list A :=
  match l with
  | [] => []
  | x :: xs => pinsert x (psort xs)
  end.
End PureSort.

(** The sort key of a record and the order of a sequence of records. *)
Definition sort_key (sort_by : string) (x : pdict) : Py.value := get_num x sort_by.

Definition key_float (sort_by : string) (x : pdict) : float := knum (sort_key sort_by) x.

(** The records of a collection hold numbers under [sort_by]: no [null], no
    NaN (a missing key counts as the number 0). *)
Definition numeric_keys (sort_by : string) (data : patients) : Prop :=
  Forall (numkey (sort_key sort_by)) (Py.values data).

(** What a sort request lists, when it lists anything. *)
Definition listed (o : outcome returned * file) : option (list pdict) :=
  match fst o with
  | Ok (Value (Sequence l)) => Some l
  | _ => None
  end.

(** [x[key] = v] for a key of [valid_fields]. *)
Definition set_num (x : pdict) (key : string) (v : cell float) : pdict :=
  if String.eqb key "height" then
    mk_pdict (k_id x) (k_name x) (k_city x) (k_age x) (k_gender x)
      v (k_weight x) (k_bmi x) (k_verdict x)
  else if String.eqb key "weight" then
    mk_pdict (k_id x) (k_name x) (k_city x) (k_age x) (k_gender x)
      (k_height x) v (k_bmi x) (k_verdict x)
  else
    mk_pdict (k_id x) (k_name x) (k_city x) (k_age x) (k_gender x)
      (k_height x) (k_weight x) v (k_verdict x).

(** The record with the number 0 written under [sort_by] where it has no
    such key. *)
Definition fill_zero (sort_by : string) (x : pdict) : pdict :=
  match num_cell x sort_by with
  | Absent => set_num x sort_by (Has 0%float)
  | _ => x
  end.

Definition map_values (f : pdict -> pdict) (data : patients) : patients :=
  map (fun kv => (fst kv, f (snd kv))) data.

Definition map_listing (f : pdict -> pdict) (o : outcome returned) : outcome returned :=
  match o with
  | Ok (Value (Sequence l)) => Ok (Value (Sequence (map f l)))
  | _ => o
  end.

(** Two records are apart under [sort_by] when [<] orders their keys. *)
Definition keys_apart (sort_by : string) (x y : pdict) : Prop :=
  (key_float sort_by x <? key_float sort_by y)%float = true
  \/ (key_float sort_by y <? key_float sort_by x)%float = true.

(** The records of a sequence whose key equals [k]. *)
Definition tied (sort_by : string) (k : float) (l : list pdict) : list pdict :=
  filter (fun x => (key_float sort_by x =? k)%float) l.

(** *** Sample data

    The evaluations on these run on [exact_libm]. *)

Definition request_P001 : pdict :=
  mk_pdict (Has "P001") (Has "Asha") (Has "Pune") (Has 30%Z) (Has "female")
    (Has 1.8%float) (Has 72%float) Absent Absent.

Definition patient_P001 : Patient.t :=
  Patient.mk "P001" "Asha" "Pune" 30 female 1.8 72.

(** What [POST /create] writes for [request_P001]. *)
Definition stored_P001 : pdict :=
  mk_pdict (Has "P001") (Has "Asha") (Has "Pune") (Has 30%Z) (Has "female")
    (Has 1.8%float) (Has 72%float) (Has 22.22%float) (Has "Normal weight").

(** A second patient of the same height and weight. *)
Definition request_P002 : pdict :=
  mk_pdict (Has "P002") (Has "Ravi") (Has "Delhi") (Has 41%Z) (Has "male")
    (Has 1.8%float) (Has 72%float) Absent Absent.

Definition stored_P002 : pdict :=
  mk_pdict (Has "P002") (Has "Ravi") (Has "Delhi") (Has 41%Z) (Has "male")
    (Has 1.8%float) (Has 72%float) (Has 22.22%float) (Has "Normal weight").

(** A valid request whose height squares to zero in double arithmetic. *)
Definition request_tiny : pdict :=
  mk_pdict (Has "P003") (Has "Mira") (Has "Goa") (Has 25%Z) (Has "other")
    (Has 1e-200%float) (Has 72%float) Absent Absent.

Definition patient_tiny : Patient.t :=
  Patient.mk "P003" "Mira" "Goa" 25 other 1e-200 72.

(** A record as a hand-written [patients.json] keeps it: keyed by the id,
    without an [id] entry of its own. *)
Definition keyed_P001 : pdict :=
  mk_pdict Absent (Has "Asha") (Has "Pune") (Has 30%Z) (Has "female")
    (Has 1.8%float) (Has 72%float) (Has 22.22%float) (Has "Normal weight").

(** A record without [bmi], and one with the number 0 under it. *)
Definition keyed_P004 : pdict :=
  mk_pdict Absent (Has "Lata") (Has "Agra") (Has 52%Z) (Has "female")
    (Has 1.6%float) (Has 60%float) Absent Absent.

Definition update_age (a : Z) : Patient_update.t :=
  Patient_update.mk Absent Absent (Has a) Absent Absent Absent.

Definition update_height (h : float) : Patient_update.t :=
  Patient_update.mk Absent Absent Absent Absent (Has h) Absent.

Definition update_city (c : string) : Patient_update.t :=
  Patient_update.mk Absent (Has c) Absent Absent Absent Absent.

(** ** The service as a whole

    [DELETE /delete/{patient_id}] returns a message only, as the two
    endpoints above do. *)
Definition DELETE_delete (patient_id : string) : file -> response * file :=
  serve (delete_patient patient_id).

(** A request to one of the eight endpoints. *)
Inductive request : Type :=
| Root
| About
| View
| ViewPatient (patient_id : string)
| Sort (sort_by order : string)
| Create (body : pdict)
| Edit (patient_id : string) (body : Patient_update.t)
| Delete (patient_id : string).

(** What a request leaves in the file. *)
Definition effect {L : Libm} (q : request) (f : file) : file :=
  match q with
  | Root => snd (hello f)
  | About => snd (about f)
  | View => snd (view f)
  | ViewPatient patient_id => snd (view_patient patient_id f)
  | Sort sort_by order => snd (sort_patients sort_by order f)
  | Create body => snd (POST_create body f)
  | Edit patient_id body => snd (PUT_edit patient_id body f)
  | Delete patient_id => snd (DELETE_delete patient_id f)
  end.

(** The file after a sequence of requests, served one after the other. *)
Definition run {L : Libm} (qs : list request) (f : file) : file :=
  fold_left (fun f q => effect q f) qs f.

(** A record as the service writes it under the key [k]: the dump of a
    valid patient whose id is [k]. *)
Definition written {L : Libm} (k : string) (r : pdict) : Prop :=
  exists p, Patient.validate r = Ok p /\ Patient.model_dump p = Ok r /\ Patient.id p = k.

(** A collection of records the service wrote, each under its own id. *)
Definition service_kept {L : Libm} (data : patients) : Prop :=
  NoDup (Py.keys data) /\ Forall (fun kv => written (fst kv) (snd kv)) data.

(** A request body with [bmi] and [verdict] entries of the client's choice. *)
Definition with_derived (b : cell float) (v : cell string) (body : pdict) : pdict :=
  mk_pdict (k_id body) (k_name body) (k_city body) (k_age body) (k_gender body)
    (k_height body) (k_weight body) b v.

(** A payload that sets some field to [null]. *)
Definition sets_null (u : Patient_update.t) : Prop :=
  Patient_update.name u = Null \/ Patient_update.city u = Null
  \/ Patient_update.age u = Null \/ Patient_update.gender u = Null
  \/ Patient_update.height u = Null \/ Patient_update.weight u = Null.

(** The payload that carries every field of a patient. *)
Definition full_update (p : Patient.t) : Patient_update.t :=
  Patient_update.mk (Has (Patient.name p)) (Has (Patient.city p)) (Has (Patient.age p))
    (Has (Gender_to_string (Patient.gender p))) (Has (Patient.height p))
    (Has (Patient.weight p)).

(** ** [Frontend/app.py]: the helpers that compute *)

Module App.

(** [calculate_bmi(height, weight)] on two floats. *)
Definition calculate_bmi {L : Libm} (height weight : float) : outcome float :=
  sq <- Py.pow2 height ;;
  q <- Py.truediv weight sq ;;
  Ok (Py.round2 q).

Definition get_bmi_verdict (bmi : float) : string :=
  if (bmi <? 18.5)%float then "Underweight"
  else if ((18.5 <=? bmi)%float && (bmi <? 25)%float)%bool then "Normal"
  else if ((25 <=? bmi)%float && (bmi <? 30)%float)%bool then "Overweight"
  else "Obese".

End App.

(** ** What the specification says, in its own words *)

(** "Only provided fields overwrite": the entry [result] of the updated
    record is the value the payload provides, and the stored entry [old]
    when the payload leaves the field out. *)
Definition provided_or_kept {A : Type} (provided old result : cell A) : Prop :=
  (provided = Absent -> result = old)
  /\ (forall v, provided = Has v -> result = Has v).

(** "Rounded to 2 decimals", for a number [m * 2^e] with [e < 0]: [n / 100]
    is the decimal with two places nearest to it, the one with the even [n]
    when two are equally near. *)
Definition hundredths (m : positive) (e : Z) (n : Z) : Prop :=
  let den := (2 ^ (- e))%Z in
  (2 * Z.abs (100 * Zpos m - n * den) <= den)%Z
  /\ ((2 * Z.abs (100 * Zpos m - n * den) = den)%Z -> Z.even n = true).

(** [y] is [q] rounded to 2 decimals: a float with [0 <= e] is a whole
    number and stays; otherwise [y] is the double nearest to the nearest
    decimal [n / 100], with the sign of [q]; zeros, infinities and NaN
    stay. *)
Definition rounded_to_2_decimals (q y : float) : Prop :=
  match Prim2SF q with
  | S754_finite s m e =>
      if (0 <=? e)%Z then y = q
      else
        exists n : Z,
          hundredths m e n
          /\ y = match n with
                 | Zpos k =>
                     if s then (- Py.nearest_ratio k 100)%float
                     else Py.nearest_ratio k 100
                 | _ => if s then (- 0)%float else 0%float
                 end
  | _ => y = q
  end.

(** The bmi of a stored record, a missing one counting as 0. *)
Definition bmi_of (x : pdict) : float :=
  match k_bmi x with
  | Has f => f
  | _ => 0%float
  end.

(** The [bmi] entry of a record is a number or is missing. *)
Definition bmi_is_number (x : pdict) : Prop :=
  match k_bmi x with
  | Has f => numeric f
  | Absent => True
  | Null => False
  end.

(** Three valid requests; the second has an infinite height and weight,
    whose bmi is NaN. *)
Definition request_light : pdict :=
  mk_pdict (Has "P007") (Has "Tara") (Has "Pune") (Has 28%Z) (Has "female")
    (Has 1.8%float) (Has 40%float) Absent Absent.

Definition request_infinite : pdict :=
  mk_pdict (Has "P008") (Has "Uma") (Has "Pune") (Has 28%Z) (Has "female")
    (Has infinity) (Has infinity) Absent Absent.

Definition stored_light : pdict :=
  mk_pdict (Has "P007") (Has "Tara") (Has "Pune") (Has 28%Z) (Has "female")
    (Has 1.8%float) (Has 40%float) (Has 12.35%float) (Has "Underweight").

Definition stored_infinite : pdict :=
  mk_pdict (Has "P008") (Has "Uma") (Has "Pune") (Has 28%Z) (Has "female")
    (Has infinity) (Has infinity) (Has nan) (Has "Obese").

(** *** Lemmas on the order of floats *)

Lemma lex_compare_Lt (p q : Z * Z * Z) : lex_compare p q = Lt <-> lex_lt p q.
Proof.
  destruct p as [[a b] c], q as [[a' b'] c']; unfold lex_compare, lex_lt.
  destruct (Z.compare_spec a a'); destruct (Z.compare_spec b b');
    destruct (Z.compare_spec c c'); split; intros; try discriminate; try reflexivity; lia.
Qed.

Lemma lex_compare_Gt (p q : Z * Z * Z) : lex_compare p q = Gt <-> lex_lt q p.
Proof.
  destruct p as [[a b] c], q as [[a' b'] c']; unfold lex_compare, lex_lt.
  destruct (Z.compare_spec a a'); destruct (Z.compare_spec b b');
    destruct (Z.compare_spec c c'); split; intros; try discriminate; try reflexivity; lia.
Qed.

Lemma lex_compare_Eq (p q : Z * Z * Z) : lex_compare p q = Eq <-> p = q.
Proof.
  destruct p as [[a b] c], q as [[a' b'] c']; unfold lex_compare.
  destruct (Z.compare_spec a a'); destruct (Z.compare_spec b b');
    destruct (Z.compare_spec c c'); split; intros E; try discriminate;
    try reflexivity; try (injection E; intros; lia); subst; reflexivity.
Qed.

Lemma SFcompare_rank (x y : spec_float) :
  x <> S754_nan -> y <> S754_nan ->
  SFcompare x y = Some (lex_compare (rank x) (rank y)).
Proof.
  intros Hx Hy.
  destruct x as [sx|sx| |sx mx ex], y as [sy|sy| |sy my ey];
    try congruence;
    try destruct sx; try destruct sy; try reflexivity.
  cbn [SFcompare rank lex_compare]. f_equal.
  rewrite Z.compare_opp, (Z.compare_antisym ex ey).
  destruct (ex ?= ey)%Z; reflexivity.
Qed.

Lemma SFcompare_nan_l (y : spec_float) : SFcompare S754_nan y = None.
Proof. reflexivity. Qed.

Lemma SFcompare_nan_r (x : spec_float) : SFcompare x S754_nan = None.
Proof. destruct x; reflexivity. Qed.

Lemma numeric_iff (f : float) : numeric f <-> Prim2SF f <> S754_nan.
Proof.
  unfold numeric, is_nan. rewrite eqb_spec. unfold SFeqb.
  destruct (Prim2SF f) as [s|s| |s m e] eqn:E.
  - cbn. split; [discriminate | reflexivity].
  - destruct s; cbn; (split; [discriminate | reflexivity]).
  - cbn. split; [discriminate | intros H; now elim H].
  - rewrite SFcompare_rank by discriminate.
    assert (Hr : lex_compare (rank (S754_finite s m e)) (rank (S754_finite s m e)) = Eq)
      by now apply lex_compare_Eq.
    rewrite Hr. cbn. split; [discriminate | reflexivity].
Qed.

Lemma ltb_iff (a b : float) :
  (a <? b)%float = true <-> numeric a /\ numeric b /\ lex_lt (frank a) (frank b).
Proof.
  rewrite ltb_spec, !numeric_iff. unfold SFltb, frank.
  destruct (Prim2SF a) as [s|s| |s m e] eqn:Ea.
  3: { rewrite SFcompare_nan_l. split; [discriminate | intros (H & _); now elim H]. }
  all: destruct (Prim2SF b) as [s'|s'| |s' m' e'] eqn:Eb.
  all: try (rewrite SFcompare_nan_r; split; [discriminate | intros (_ & H & _); now elim H]).
  all: rewrite SFcompare_rank by discriminate.
  all: rewrite <- lex_compare_Lt.
  all: match goal with |- context [lex_compare ?p ?q] => destruct (lex_compare p q) end.
  all: split; try discriminate; try (intros (_ & _ & H); discriminate H).
  all: intros _; repeat split; discriminate.
Qed.

Lemma leb_iff (a b : float) :
  (a <=? b)%float = true <-> numeric a /\ numeric b /\ ~ lex_lt (frank b) (frank a).
Proof.
  rewrite leb_spec, !numeric_iff. unfold SFleb, frank.
  destruct (Prim2SF a) as [s|s| |s m e] eqn:Ea.
  3: { rewrite SFcompare_nan_l. split; [discriminate | intros (H & _); now elim H]. }
  all: destruct (Prim2SF b) as [s'|s'| |s' m' e'] eqn:Eb.
  all: try (rewrite SFcompare_nan_r; split; [discriminate | intros (_ & H & _); now elim H]).
  all: rewrite SFcompare_rank by discriminate.
  all: rewrite <- lex_compare_Gt.
  all: match goal with |- context [lex_compare ?p ?q] => destruct (lex_compare p q) end.
  all: split; try discriminate; try (intros (_ & _ & H); now elim H).
  all: intros _; repeat split; discriminate.
Qed.

Lemma eqb_iff (a b : float) :
  (a =? b)%float = true <-> numeric a /\ numeric b /\ frank a = frank b.
Proof.
  rewrite eqb_spec, !numeric_iff. unfold SFeqb, frank.
  destruct (Prim2SF a) as [s|s| |s m e] eqn:Ea.
  3: { rewrite SFcompare_nan_l. split; [discriminate | intros (H & _); now elim H]. }
  all: destruct (Prim2SF b) as [s'|s'| |s' m' e'] eqn:Eb.
  all: try (rewrite SFcompare_nan_r; split; [discriminate | intros (_ & H & _); now elim H]).
  all: rewrite SFcompare_rank by discriminate.
  all: rewrite <- lex_compare_Eq.
  all: match goal with |- context [lex_compare ?p ?q] => destruct (lex_compare p q) end.
  all: split; try discriminate; try (intros (_ & _ & H); discriminate H).
  all: intros _; repeat split; discriminate.
Qed.

Lemma ltb_asym (a b : float) : (a <? b)%float = true -> (b <? a)%float = false.
Proof.
  intros H. apply not_true_iff_false. intros H'.
  apply ltb_iff in H, H'. destruct H as (_ & _ & H), H' as (_ & _ & H').
  destruct (frank a) as [[a1 a2] a3], (frank b) as [[b1 b2] b3].
  unfold lex_lt in *. lia.
Qed.

Lemma ltb_irrefl (a : float) : (a <? a)%float = false.
Proof.
  destruct (a <? a)%float eqn:E; [|reflexivity].
  now rewrite (ltb_asym _ _ E) in E.
Qed.

Lemma ltb_trans (a b c : float) :
  (a <? b)%float = true -> (b <? c)%float = true -> (a <? c)%float = true.
Proof.
  intros H H'. apply ltb_iff in H, H'. apply ltb_iff.
  destruct H as (Ha & _ & H), H' as (_ & Hc & H'). repeat split; trivial.
  destruct (frank a) as [[a1 a2] a3], (frank b) as [[b1 b2] b3], (frank c) as [[c1 c2] c3].
  unfold lex_lt in *. lia.
Qed.

Lemma ltb_false_leb (a b : float) :
  numeric a -> numeric b -> (b <? a)%float = false -> (a <=? b)%float = true.
Proof.
  intros Ha Hb H. apply leb_iff. repeat split; trivial.
  intros L. apply not_true_iff_false in H. apply H, ltb_iff. auto.
Qed.

Lemma leb_ltb_false (a b : float) : (a <=? b)%float = true -> (b <? a)%float = false.
Proof.
  intros H. apply leb_iff in H. destruct H as (_ & _ & H).
  apply not_true_iff_false. intros L. apply ltb_iff in L. tauto.
Qed.

(** [<] is negatively transitive through a number. *)
Lemma ltb_negtrans (a b c : float) :
  numeric b -> (b <? a)%float = false -> (c <? b)%float = false -> (c <? a)%float = false.
Proof.
  intros Hb H1 H2. apply not_true_iff_false. intros L.
  apply not_true_iff_false in H1, H2. apply ltb_iff in L. destruct L as (Hc & Ha & L).
  assert (N1 : ~ lex_lt (frank b) (frank a)) by (intros N; apply H1, ltb_iff; auto).
  assert (N2 : ~ lex_lt (frank c) (frank b)) by (intros N; apply H2, ltb_iff; auto).
  destruct (frank a) as [[a1 a2] a3], (frank b) as [[b1 b2] b3], (frank c) as [[c1 c2] c3].
  unfold lex_lt in *. lia.
Qed.

(** Two floats equal to a third are not ordered by [<]. *)
Lemma eqb_ltb_false (k a b : float) :
  (a =? k)%float = true -> (b =? k)%float = true -> (b <? a)%float = false.
Proof.
  intros H1 H2. apply eqb_iff in H1, H2. apply not_true_iff_false. intros L.
  apply ltb_iff in L. destruct H1 as (_ & _ & E1), H2 as (_ & _ & E2), L as (_ & _ & L).
  rewrite E1, E2 in L.
  destruct (frank k) as [[k1 k2] k3]. unfold lex_lt in L. lia.
Qed.

Lemma ltb_numeric (a b : float) : (a <? b)%float = true -> numeric a /\ numeric b.
Proof. intros H. apply ltb_iff in H. tauto. Qed.

(** *** Lemmas on [sorted] *)

Section SortFacts.
Context {A : Type}.
Variable key : A -> Py.value.

Let asc (x y : A) : Prop := ltk key y x = false.
Let apart (x y : A) : Prop := ltk key x y = true \/ ltk key y x = true.

Lemma lt_numkey (x y : A) :
  numkey key x -> numkey key y -> Py.lt (key x) (key y) = Ok (ltk key x y).
Proof.
  unfold numkey, ltk, knum. destruct (key x), (key y); simpl; tauto.
Qed.

Lemma pinsert_perm (x : A) (l : list A) : Permutation (pinsert key x l) (x :: l).
Proof.
  induction l as [|y ys IH]; simpl; [reflexivity|].
  destruct (ltk key y x); [|reflexivity].
  rewrite IH. apply perm_swap.
Qed.

Lemma psort_perm (l : list A) : Permutation (psort key l) l.
Proof.
  induction l as [|x xs IH]; simpl; [reflexivity|].
  rewrite pinsert_perm. now constructor.
Qed.

Lemma insert_pure (x : A) (l : list A) :
  numkey key x -> Forall (numkey key) l ->
  Py.insert key x l = Ok (pinsert key x l).
Proof.
  intros Hx Hl. induction Hl as [|y ys Hy Hys IH]; simpl; [reflexivity|].
  rewrite (lt_numkey y x Hy Hx). simpl.
  destruct (ltk key y x); [|reflexivity].
  rewrite IH. reflexivity.
Qed.

Lemma sort_pure (l : list A) :
  Forall (numkey key) l -> Py.sort key l = Ok (psort key l).
Proof.
  intros Hl. induction Hl as [|x xs Hx Hxs IH]; simpl; [reflexivity|].
  rewrite IH. simpl. apply insert_pure; [assumption|].
  apply (Permutation_Forall (Permutation_sym (psort_perm xs))), Hxs.
Qed.

Lemma sorted_pure (l : list A) (reverse : bool) :
  Forall (numkey key) l ->
  Py.sorted key l reverse
  = Ok (if reverse then rev (psort key (rev l)) else psort key l).
Proof.
  intros Hl. unfold Py.sorted. destruct reverse.
  - rewrite sort_pure; [reflexivity|].
    apply (Permutation_Forall (Permutation_rev l)), Hl.
  - now apply sort_pure.
Qed.

Lemma numkey_numeric (x : A) : numkey key x -> numeric (knum key x).
Proof. unfold numkey, knum. destruct (key x); simpl; tauto. Qed.

Lemma pinsert_sorted (x : A) (l : list A) :
  Forall (numkey key) l ->
  StronglySorted asc l -> StronglySorted asc (pinsert key x l).
Proof.
  intros Hn Hs. induction Hs as [|y ys Hs IH Hy]; simpl.
  - repeat constructor.
  - inversion Hn as [|? ? Hny Hnys]; subst.
    destruct (ltk key y x) eqn:E.
    + constructor; [now apply IH|].
      apply (Permutation_Forall (Permutation_sym (pinsert_perm x ys))).
      constructor; [|assumption].
      unfold asc, ltk in *. now apply ltb_asym.
    + constructor; [now constructor|].
      constructor; [exact E|].
      rewrite Forall_forall in Hy |- *. intros z Hz.
      specialize (Hy z Hz). unfold asc, ltk in *.
      apply ltb_negtrans with (b := knum key y); trivial.
      now apply numkey_numeric.
Qed.

Lemma psort_sorted (l : list A) :
  Forall (numkey key) l -> StronglySorted asc (psort key l).
Proof.
  intros Hl. induction Hl as [|x xs Hx Hxs IH]; simpl; [constructor|].
  apply pinsert_sorted; [|assumption].
  apply (Permutation_Forall (Permutation_sym (psort_perm xs))), Hxs.
Qed.

Lemma StronglySorted_app_one (R : A -> A -> Prop) (l : list A) (x : A) :
  StronglySorted R l -> Forall (fun y => R y x) l -> StronglySorted R (l ++ [x]).
Proof.
  intros Hs. induction Hs as [|y ys Hs IH Hy]; intros Hx; simpl.
  - repeat constructor.
  - inversion Hx; subst. constructor; [now apply IH|].
    apply Forall_app. split; [assumption|]. now constructor.
Qed.

Lemma StronglySorted_rev (R : A -> A -> Prop) (l : list A) :
  StronglySorted R l -> StronglySorted (fun x y => R y x) (rev l).
Proof.
  intros Hs. induction Hs as [|y ys Hs IH Hy]; simpl; [constructor|].
  apply StronglySorted_app_one; [assumption|].
  apply Forall_rev. exact Hy.
Qed.

(** Insertion moves [x] past elements strictly below it only, so it keeps
    the order of any elements that [<] does not separate. *)
Lemma pinsert_filter (P : A -> bool) (x : A) (l : list A) :
  (forall y, In y l -> P x = true -> P y = true -> ltk key y x = false) ->
  filter P (pinsert key x l) = filter P (x :: l).
Proof.
  induction l as [|y ys IH]; intros H; simpl; [reflexivity|].
  destruct (ltk key y x) eqn:E; [|reflexivity].
  simpl. rewrite IH by (intros z Hz; apply H; now right). simpl.
  destruct (P x) eqn:Px, (P y) eqn:Py; try reflexivity.
  rewrite (H y (or_introl eq_refl) eq_refl Py) in E. discriminate.
Qed.

Lemma psort_filter (P : A -> bool) (l : list A) :
  (forall x y, P x = true -> P y = true -> ltk key y x = false) ->
  filter P (psort key l) = filter P l.
Proof.
  intros H. induction l as [|x xs IH]; simpl; [reflexivity|].
  rewrite pinsert_filter by (intros; now apply H).
  simpl. now rewrite IH.
Qed.

Lemma rev_filter (P : A -> bool) (l : list A) : filter P (rev l) = rev (filter P l).
Proof.
  induction l as [|x xs IH]; simpl; [reflexivity|].
  rewrite filter_app, IH. simpl. destruct (P x); simpl; [reflexivity|].
  now rewrite app_nil_r.
Qed.

Lemma apart_perm (l l' : list A) :
  Permutation l l' -> ForallOrdPairs apart l -> ForallOrdPairs apart l'.
Proof.
  induction 1 as [|x l l' Hp IH|x y l|l l' l'' Hp1 IH1 Hp2 IH2]; intros H.
  - constructor.
  - inversion H; subst. constructor; [|now apply IH].
    now apply (Permutation_Forall Hp).
  - inversion H as [|? ? Hy Hr]; subst. inversion Hr as [|? ? Hx Hl]; subst.
    inversion Hy as [|? ? Hyx Hyl]; subst.
    constructor; [|now constructor].
    constructor; [|assumption]. unfold apart in *. tauto.
  - auto.
Qed.

(** A list whose keys are pairwise apart has one sorted arrangement. *)
Lemma sorted_perm_unique (l1 : list A) :
  forall l2, Permutation l1 l2 ->
  StronglySorted asc l1 -> StronglySorted asc l2 ->
  ForallOrdPairs apart l1 -> l1 = l2.
Proof.
  induction l1 as [|x l1 IH]; intros l2 Hp S1 S2 Ha.
  - apply Permutation_nil in Hp. now subst.
  - destruct l2 as [|y l2]; [now apply Permutation_sym, Permutation_nil in Hp|].
    inversion S1 as [|? ? S1' F1]; subst. inversion S2 as [|? ? S2' F2]; subst.
    inversion Ha as [|? ? Hx Ha']; subst.
    assert (E : x = y).
    { assert (Ix : In x (y :: l2)) by (apply (Permutation_in _ Hp); now left).
      assert (Iy : In y (x :: l1))
        by (apply (Permutation_in _ (Permutation_sym Hp)); now left).
      destruct Ix as [->|Ix]; [reflexivity|].
      destruct Iy as [<-|Iy]; [reflexivity|].
      rewrite Forall_forall in F1, F2, Hx.
      specialize (F1 y Iy). specialize (F2 x Ix). specialize (Hx y Iy).
      unfold asc, apart in *. destruct Hx; congruence. }
    subst y. f_equal. apply IH; trivial.
    now apply Permutation_cons_inv in Hp.
Qed.

Lemma psort_rev (l : list A) :
  Forall (numkey key) l -> ForallOrdPairs apart l ->
  psort key (rev l) = psort key l.
Proof.
  intros Hn Ha.
  assert (Hr : Forall (numkey key) (rev l))
    by (apply (Permutation_Forall (Permutation_rev l)), Hn).
  apply sorted_perm_unique.
  - rewrite !psort_perm. apply Permutation_sym, Permutation_rev.
  - now apply psort_sorted.
  - now apply psort_sorted.
  - apply apart_perm with (l := l); [|assumption].
    rewrite psort_perm. apply Permutation_rev.
Qed.

(** The sort sees a record through its key only. *)
Lemma insert_map (f : A -> A) (x : A) (l : list A) :
  (forall y, key (f y) = key y) ->
  Py.insert key (f x) (map f l) = omap (map f) (Py.insert key x l).
Proof.
  intros Hf. induction l as [|y ys IH]; simpl; [reflexivity|].
  rewrite !Hf. destruct (Py.lt (key y) (key x)) as [[|]|e]; simpl; try reflexivity.
  rewrite IH. destruct (Py.insert key x ys); reflexivity.
Qed.

Lemma sort_map (f : A -> A) (l : list A) :
  (forall y, key (f y) = key y) ->
  Py.sort key (map f l) = omap (map f) (Py.sort key l).
Proof.
  intros Hf. induction l as [|x xs IH]; simpl; [reflexivity|].
  rewrite IH. destruct (Py.sort key xs) as [s|e]; simpl; [|reflexivity].
  now apply insert_map.
Qed.

Lemma sorted_map (f : A -> A) (l : list A) (reverse : bool) :
  (forall y, key (f y) = key y) ->
  Py.sorted key (map f l) reverse = omap (map f) (Py.sorted key l reverse).
Proof.
  intros Hf. unfold Py.sorted. destruct reverse; [|now apply sort_map].
  rewrite <- map_rev, sort_map by assumption.
  destruct (Py.sort key (rev l)); simpl; [|reflexivity].
  now rewrite map_rev.
Qed.
End SortFacts.

(** ** The models *)

Lemma Gender_round_trip (s : string) (g : Gender) :
  Gender_of_string s = Some g -> Gender_to_string g = s.
Proof.
  unfold Gender_of_string.
  destruct (String.eqb_spec s "male"); [intros [= <-]; now subst|].
  destruct (String.eqb_spec s "female"); [intros [= <-]; now subst|].
  destruct (String.eqb_spec s "other"); [intros [= <-]; now subst|].
  discriminate.
Qed.

Lemma Gender_of_to_string (g : Gender) : Gender_of_string (Gender_to_string g) = Some g.
Proof. destruct g; reflexivity. Qed.

(** [round(x, 2)] on values whose rounding Python documents or that are
    exact ties: 2.675 is a double just below the tie, 0.125 and 0.375 are
    ties and go to the even neighbour. *)
Lemma round2_examples :
  Py.round2 2.675 = 2.67%float /\ Py.round2 0.125 = 0.12%float
  /\ Py.round2 0.375 = 0.38%float /\ Py.round2 (-0.001) = (-0)%float
  /\ Py.round2 1e22 = 1e22%float /\ Py.round2 infinity = infinity.
Proof. repeat split. Qed.

(** What a successful validation says about the keyword arguments. *)
Lemma validate_inv (kw : pdict) (p : Patient.t) :
  Patient.validate kw = Ok p ->
  k_id kw = Has (Patient.id p) /\ k_name kw = Has (Patient.name p)
  /\ k_city kw = Has (Patient.city p) /\ k_age kw = Has (Patient.age p)
  /\ k_gender kw = Has (Gender_to_string (Patient.gender p))
  /\ k_height kw = Has (Patient.height p) /\ k_weight kw = Has (Patient.weight p)
  /\ (0 < Patient.age p < 120)%Z
  /\ (0 <? Patient.height p)%float = true /\ (0 <? Patient.weight p)%float = true.
Proof.
  unfold Patient.validate.
  destruct (k_id kw) as [| |i]; try discriminate.
  destruct (k_name kw) as [| |n]; try discriminate.
  destruct (k_city kw) as [| |c]; try discriminate.
  destruct (k_age kw) as [| |a]; try discriminate.
  destruct (k_gender kw) as [| |g]; try discriminate.
  destruct (k_height kw) as [| |h]; try discriminate.
  destruct (k_weight kw) as [| |w]; try discriminate.
  destruct (Gender_of_string g) as [g'|] eqn:Eg; try discriminate.
  destruct (_ && _)%bool eqn:E; try discriminate.
  intros [= <-]. simpl.
  apply andb_prop in E. destruct E as [E Ew].
  apply andb_prop in E. destruct E as [E Eh].
  apply andb_prop in E. destruct E as [E0 E1].
  apply Z.ltb_lt in E0, E1.
  rewrite (Gender_round_trip _ _ Eg). repeat split; trivial.
Qed.

Lemma infinite_nonzero (x : float) : is_infinity x = true -> (abs x =? 0)%float = false.
Proof.
  unfold is_infinity. intros H. apply eqb_iff in H. destruct H as (_ & _ & H).
  apply not_true_iff_false. intros Z. apply eqb_iff in Z. destruct Z as (_ & _ & Z).
  rewrite H in Z. discriminate Z.
Qed.

(** The computed fields of a dumped model. *)
Lemma model_dump_inv {L : Libm} (p : Patient.t) (r : pdict) :
  Patient.model_dump p = Ok r ->
  exists b v, Patient.bmi p = Ok b /\ Patient.verdict p = Ok v
    /\ r = mk_pdict (Has (Patient.id p)) (Has (Patient.name p)) (Has (Patient.city p))
             (Has (Patient.age p)) (Has (Gender_to_string (Patient.gender p)))
             (Has (Patient.height p)) (Has (Patient.weight p)) (Has b) (Has v).
Proof.
  unfold Patient.model_dump.
  destruct (Patient.bmi p) as [b|e]; simpl; [|discriminate].
  destruct (Patient.verdict p) as [v|e]; simpl; [|discriminate].
  intros [= <-]. now exists b, v.
Qed.

Lemma verdict_of_bmi {L : Libm} (p : Patient.t) (b : float) :
  Patient.bmi p = Ok b -> exists v, Patient.verdict p = Ok v.
Proof.
  intros Hb. unfold Patient.verdict. rewrite Hb. simpl.
  destruct (b <? 18.5)%float; [eauto|].
  destruct (_ && _)%bool; [eauto|].
  destruct (_ && _)%bool; eauto.
Qed.

Lemma model_dump_of_bmi {L : Libm} (p : Patient.t) (b : float) :
  Patient.bmi p = Ok b -> exists r, Patient.model_dump p = Ok r.
Proof.
  intros Hb. destruct (verdict_of_bmi p b Hb) as [v Hv].
  unfold Patient.model_dump. rewrite Hb, Hv. simpl. eauto.
Qed.

Lemma model_dump_raises {L : Libm} (p : Patient.t) (e : exn) :
  Patient.bmi p = Raise e -> Patient.model_dump p = Raise e.
Proof. intros Hb. unfold Patient.model_dump. now rewrite Hb. Qed.

(** Above a threshold [c], and so not below any [c'] that [c] is not below. *)
Lemma at_least_not_below (c c' b : float) :
  numeric c -> (c <? c')%float = false ->
  (c <=? b)%float = true -> (b <? c')%float = false.
Proof.
  intros Hc Hcc Hb. apply ltb_negtrans with (b := c); trivial.
  now apply leb_ltb_false.
Qed.

Lemma abs_positive (h : float) : (0 <? h)%float = true -> abs h = h.
Proof.
  intros H. apply Prim2SF_inj. rewrite abs_spec.
  rewrite ltb_spec in H. change (Prim2SF 0) with (S754_zero false) in H.
  destruct (Prim2SF h) as [s|s| |s m e]; try discriminate H;
    destruct s; try discriminate H; reflexivity.
Qed.

Lemma positive_nonzero (h : float) : (0 <? h)%float = true -> (h =? 0)%float = false.
Proof.
  intros H. apply not_true_iff_false. intros Z.
  apply ltb_iff in H. apply eqb_iff in Z.
  destruct H as (_ & _ & H), Z as (_ & _ & Z). rewrite Z in H.
  destruct (frank 0) as [[a b] c]. unfold lex_lt in H. lia.
Qed.

(** [round2] rounds to 2 decimals. *)
Lemma round2_rounded (q : float) : rounded_to_2_decimals q (Py.round2 q).
Proof.
  unfold rounded_to_2_decimals, Py.round2.
  destruct (Prim2SF q) as [s|s| |s m e]; try reflexivity.
  destruct (0 <=? e)%Z eqn:He; [reflexivity|].
  apply Z.leb_gt in He.
  assert (Hd : (0 < 2 ^ (- e))%Z) by (apply Z.pow_pos_nonneg; lia).
  set (den := (2 ^ (- e))%Z) in *.
  set (num := (100 * Z.pos m)%Z).
  pose proof (Z.div_mod num den ltac:(lia)) as Hdm.
  pose proof (Z.mod_pos_bound num den Hd) as Hr.
  set (k := (num / den)%Z) in *. set (r := (num mod den)%Z) in *.
  eexists. split; [|reflexivity].
  unfold hundredths. fold den num.
  destruct (Z.compare_spec (2 * r) den) as [E | E | E].
  - destruct (Z.even k) eqn:Ek.
    + split; [lia | trivial].
    + split; [lia | intros _].
      rewrite Z.even_add, Ek. reflexivity.
  - split; lia.
  - split; lia.
Qed.

(** The bmi of a patient of positive height, by cases on the height and on
    the square the C library returns. *)
Lemma bmi_cases {L : Libm} (p : Patient.t) :
  (0 <? Patient.height p)%float = true ->
  let h := Patient.height p in
  let w := Patient.weight p in
  let s := c_pow2 h in
  Patient.bmi p
  = (if is_infinity h then Ok (Py.round2 (w / h))
     else if (h =? 1) then Ok (Py.round2 (w / 1))
     else if is_infinity s then Raise OverflowError
     else if (s =? 0) then Raise ZeroDivisionError
     else Ok (Py.round2 (w / s)))%float.
Proof.
  intros Hp h w s. fold h in Hp.
  assert (Hn : is_nan h = false) by (apply ltb_numeric in Hp; tauto).
  unfold Patient.bmi, Py.pow2. fold h w.
  rewrite Hn, (abs_positive h Hp), (positive_nonzero h Hp). fold s.
  destruct (is_infinity h) eqn:Ei.
  - simpl. unfold Py.truediv. now rewrite (positive_nonzero h Hp).
  - destruct (h =? 1)%float; [reflexivity|].
    destruct (is_infinity s); [reflexivity|].
    simpl. unfold Py.truediv. destruct (s =? 0)%float; reflexivity.
Qed.

(** C2, as the code has it: for every valid Patient input, computing the
    bmi raises when the square of the height, which the C library gives to
    within one unit in the last place, is infinite ([OverflowError]) or zero
    ([ZeroDivisionError]); otherwise the derived bmi is the weight divided
    by that square, rounded to two decimals: the double nearest to the
    decimal with two places nearest to the quotient, the even one on a tie;
    [model_dump] writes that value; and the patient of height 1.8 and weight
    72 has bmi 22.22 and verdict "Normal weight". *)
Theorem bmi_formula {L : Libm} (request : pdict) (p : Patient.t) :
  Patient.validate request = Ok p ->
  let h := Patient.height p in
  let w := Patient.weight p in
  (exists s,
     (s = next_down (h * h) \/ s = (h * h)%float \/ s = next_up (h * h))
     /\ Patient.bmi p
        = (if is_infinity h then Ok (Py.round2 (w / h))
           else if (h =? 1) then Ok (Py.round2 (w / 1))
           else if is_infinity s then Raise OverflowError
           else if (s =? 0) then Raise ZeroDivisionError
           else Ok (Py.round2 (w / s)))%float
     /\ (forall b, Patient.bmi p = Ok b ->
           rounded_to_2_decimals
             (if is_infinity h then w / h
              else if (h =? 1) then w / 1
              else w / s)%float b))
  /\ (forall r, Patient.model_dump p = Ok r ->
        exists b, Patient.bmi p = Ok b /\ k_bmi r = Has b)
  /\ (h = 1.8%float -> w = 72%float ->
        Patient.bmi p = Ok 22.22%float /\ Patient.verdict p = Ok "Normal weight").
Proof.
  intros Hv h w. apply validate_inv in Hv.
  destruct Hv as (_ & _ & _ & _ & _ & _ & _ & _ & Hh & _).
  pose proof (bmi_cases p Hh) as Hb. cbv zeta in Hb. fold h w in Hb.
  split; [|split].
  - exists (c_pow2 h). split; [apply c_pow2_accurate|]. split; [exact Hb|].
    intros b Hb'. rewrite Hb in Hb'.
    destruct (is_infinity h); [injection Hb' as <-; apply round2_rounded|].
    destruct (h =? 1)%float; [injection Hb' as <-; apply round2_rounded|].
    destruct (is_infinity (c_pow2 h)); [discriminate Hb'|].
    destruct (c_pow2 h =? 0)%float; [discriminate Hb'|].
    injection Hb' as <-. apply round2_rounded.
  - intros r Hr. apply model_dump_inv in Hr. destruct Hr as (b & v & Hb' & _ & ->).
    now exists b.
  - intros E1 E2.
    assert (B : Patient.bmi p = Ok 22.22%float).
    { rewrite Hb, E1, E2.
      destruct (c_pow2_accurate 1.8%float) as [-> | [-> | ->]]; reflexivity. }
    split; [exact B|]. unfold Patient.verdict. now rewrite B.
Qed.

Lemma bmi_formula_witness :
  Patient.validate request_P001 = Ok patient_P001
  /\ Patient.bmi patient_P001 = Ok 22.22%float
  /\ Patient.verdict patient_P001 = Ok "Normal weight".
Proof.
  split; [reflexivity|].
  apply (bmi_formula (L := exact_libm) request_P001 patient_P001); reflexivity.
Defined.

(** C2 as stated fails: a height of 1e-200 and a weight of 72 are a valid
    Patient input, and no bmi is derived from them: the square of the height
    is zero and the division raises. *)
Lemma bmi_tiny_height_raises :
  Patient.validate request_tiny = Ok patient_tiny
  /\ (0 <? Patient.height patient_tiny)%float = true
  /\ (0 <? Patient.weight patient_tiny)%float = true
  /\ Py.pow2 (Patient.height patient_tiny) = Ok 0%float
  /\ Patient.bmi patient_tiny = Raise ZeroDivisionError.
Proof. repeat split. Qed.

(** C3: for every valid Patient the derived verdict follows from the derived
    bmi by the fixed thresholds: below 18.5 "Underweight", from 18.5 and
    below 25 "Normal weight", from 25 and below 30 "Overweight", from 30
    "Obese"; [model_dump] writes that verdict next to that bmi. *)
Theorem verdict_thresholds {L : Libm} (request : pdict) (p : Patient.t) (b : float) :
  Patient.validate request = Ok p ->
  Patient.bmi p = Ok b ->
  exists v,
    Patient.verdict p = Ok v
    /\ (exists r, Patient.model_dump p = Ok r /\ k_bmi r = Has b /\ k_verdict r = Has v)
    /\ ((b <? 18.5)%float = true -> v = "Underweight")
    /\ ((18.5 <=? b)%float = true -> (b <? 25)%float = true -> v = "Normal weight")
    /\ ((25 <=? b)%float = true -> (b <? 30)%float = true -> v = "Overweight")
    /\ ((30 <=? b)%float = true -> v = "Obese").
Proof.
  intros _ Hb.
  destruct (verdict_of_bmi p b Hb) as [v Hv]. exists v.
  split; [exact Hv|]. split.
  { unfold Patient.model_dump. rewrite Hb, Hv. simpl. eauto. }
  unfold Patient.verdict in Hv. rewrite Hb in Hv. simpl in Hv.
  repeat split.
  - intros B. rewrite B in Hv. congruence.
  - intros G B.
    rewrite (leb_ltb_false _ _ G), G, B in Hv. simpl in Hv. congruence.
  - intros G B.
    rewrite (at_least_not_below 25 18.5 b eq_refl eq_refl G) in Hv.
    rewrite (leb_ltb_false _ _ G), G, B, andb_false_r in Hv. simpl in Hv. congruence.
  - intros G.
    rewrite (at_least_not_below 30 18.5 b eq_refl eq_refl G) in Hv.
    rewrite (at_least_not_below 30 25 b eq_refl eq_refl G) in Hv.
    rewrite (leb_ltb_false _ _ G), !andb_false_r in Hv. congruence.
Qed.

Lemma verdict_thresholds_witness :
  exists v, Patient.verdict patient_P001 = Ok v /\ v = "Normal weight".
Proof.
  destruct (verdict_thresholds (L := exact_libm) request_P001 patient_P001 22.22%float eq_refl eq_refl)
    as (v & Hv & _ & _ & Hn & _).
  exists v. split; [exact Hv|]. apply Hn; reflexivity.
Defined.

(** ** The collection *)

Section DictFacts.
Context {V : Type}.
Implicit Types (d : Py.dict V) (k : string) (v : V).

Lemma get_set_same k v d : Py.get k (Py.set k v d) = Some v.
Proof.
  induction d as [|[k' v'] d IH]; simpl.
  - now rewrite String.eqb_refl.
  - destruct (String.eqb k k') eqn:E; simpl; rewrite E; [reflexivity | exact IH].
Qed.

Lemma get_set_other k k' v d : k' <> k -> Py.get k' (Py.set k v d) = Py.get k' d.
Proof.
  intros N. induction d as [|[k0 v0] d IH]; simpl.
  - apply String.eqb_neq in N. now rewrite N.
  - destruct (String.eqb_spec k k0) as [->|N0]; simpl.
    + apply String.eqb_neq in N. now rewrite N.
    + now rewrite IH.
Qed.

Lemma set_fresh k v d : Py.get k d = None -> Py.set k v d = (d ++ [(k, v)])%list.
Proof.
  induction d as [|[k0 v0] d IH]; simpl; [reflexivity|].
  destruct (String.eqb k k0); [discriminate|].
  intros H. now rewrite IH.
Qed.

Lemma contains_get k d :
  Py.contains k d = true <-> exists v, Py.get k d = Some v.
Proof.
  unfold Py.contains. destruct (Py.get k d) as [v|].
  - split; eauto.
  - split; [discriminate | intros [v H]; discriminate].
Qed.

Lemma contains_false k d : Py.contains k d = false <-> Py.get k d = None.
Proof.
  unfold Py.contains. destruct (Py.get k d); split; congruence.
Qed.

Lemma get_del_same k d : Py.get k (Py.del k d) = None.
Proof.
  unfold Py.del. induction d as [|[k0 v0] d IH]; simpl; [reflexivity|].
  destruct (String.eqb k k0) eqn:E; simpl; [exact IH|].
  now rewrite E.
Qed.

Lemma get_del_other k k' d : k' <> k -> Py.get k' (Py.del k d) = Py.get k' d.
Proof.
  intros N. unfold Py.del. induction d as [|[k0 v0] d IH]; simpl; [reflexivity|].
  destruct (String.eqb_spec k k0) as [->|N0]; simpl.
  - apply String.eqb_neq in N. now rewrite N.
  - now rewrite IH.
Qed.

Lemma del_absent k d : ~ In k (Py.keys d) -> Py.del k d = d.
Proof.
  unfold Py.del. induction d as [|[k0 v0] d IH]; simpl; [reflexivity|].
  intros N. destruct (String.eqb_spec k k0) as [->|N0]; simpl.
  - elim N. now left.
  - rewrite IH; [reflexivity|]. intros I. apply N. now right.
Qed.

(** With the keys of a dict, which are unique, [del] takes out one entry
    and leaves the others in place. *)
Lemma del_split k v d :
  NoDup (Py.keys d) -> Py.get k d = Some v ->
  exists l1 l2, d = (l1 ++ (k, v) :: l2)%list /\ Py.del k d = (l1 ++ l2)%list.
Proof.
  induction d as [|[k0 v0] d IH]; simpl; [discriminate|].
  intros Hn Hg. inversion Hn as [|? ? Hk Hd]; subst.
  destruct (String.eqb_spec k k0) as [->|N0].
  - injection Hg as ->. exists [], d. split; [reflexivity|].
    unfold Py.del. simpl. exact (del_absent k0 d Hk).
  - destruct (IH Hd Hg) as (l1 & l2 & -> & E).
    exists ((k0, v0) :: l1), l2. split; [reflexivity|].
    unfold Py.del in *. simpl. now rewrite E.
Qed.
End DictFacts.

(** ** The handlers *)

Lemma bmi_raises {L : Libm} (p : Patient.t) (e : exn) :
  Patient.bmi p = Raise e -> e = OverflowError \/ e = ZeroDivisionError.
Proof.
  unfold Patient.bmi, Py.pow2, Py.truediv.
  repeat match goal with
         | |- context [if ?c then _ else _] => destruct c; simpl
         end;
    intros [=]; auto.
Qed.

Lemma model_dump_raises_kind {L : Libm} (p : Patient.t) (e : exn) :
  Patient.model_dump p = Raise e -> e = OverflowError \/ e = ZeroDivisionError.
Proof.
  unfold Patient.model_dump. destruct (Patient.bmi p) as [b|e'] eqn:Hb; simpl.
  - destruct (verdict_of_bmi p b Hb) as [v ->]. discriminate.
  - intros [= <-]. now apply (bmi_raises p).
Qed.

Lemma validate_raises (kw : pdict) (e : exn) :
  Patient.validate kw = Raise e -> e = ValidationError.
Proof.
  unfold Patient.validate.
  destruct (k_id kw), (k_name kw), (k_city kw), (k_age kw), (k_gender kw),
    (k_height kw), (k_weight kw); try (intros [=]; auto).
  all: destruct (Gender_of_string _); [destruct (_ && _)%bool|]; congruence.
Qed.

Lemma create_conflict {L : Libm} (data : patients) (p : Patient.t) :
  Py.contains (Patient.id p) data = true ->
  serve (create_patient p) (Some data)
  = (Reply 400 (Detail "Patient with this ID already exists"), Some data).
Proof.
  intros H. unfold serve, create_patient, io_bind, load_data, io_raise.
  now rewrite H.
Qed.

Lemma create_fresh {L : Libm} (data : patients) (p : Patient.t) (r : pdict) :
  Py.contains (Patient.id p) data = false ->
  Patient.model_dump p = Ok r ->
  serve (create_patient p) (Some data)
  = (Reply 201 (Content (Created "Patient created successfully" (Patient.id p))),
     Some (data ++ [(Patient.id p, r)])%list).
Proof.
  intros H Hr. unfold serve, create_patient, io_bind, load_data, io_lift, save_data, io_ret.
  rewrite H, Hr. rewrite set_fresh by now apply contains_false. reflexivity.
Qed.

Lemma create_dump_raises {L : Libm} (data : patients) (p : Patient.t) (e : exn) :
  Py.contains (Patient.id p) data = false ->
  Patient.bmi p = Raise e ->
  serve (create_patient p) (Some data) = (Reply 500 (ServerError e), Some data).
Proof.
  intros H Hb. unfold serve, create_patient, io_bind, load_data, io_lift.
  rewrite H, (model_dump_raises p e Hb).
  destruct (bmi_raises p e Hb) as [-> | ->]; reflexivity.
Qed.

Lemma view_patient_found (data : patients) (patient_id : string) (r : pdict) :
  Py.get patient_id data = Some r ->
  view_patient patient_id (Some data) = (Ok (Value (Record_ r)), Some data).
Proof.
  intros H. unfold view_patient, io_bind, load_data. now rewrite H.
Qed.

Lemma view_patient_missing (data : patients) (patient_id : string) :
  Py.get patient_id data = None ->
  view_patient patient_id (Some data)
  = (Raise (HTTPException 404 "Patient not found"), Some data).
Proof.
  intros H. unfold view_patient, io_bind, load_data. now rewrite H.
Qed.

(** A record that carries an [id] entry cannot be rebuilt: the call
    [Patient(id=patient_id, **existing_patient)] gets the keyword twice. *)
Lemma update_id_key_TypeError {L : Libm} (data : patients) (patient_id : string)
    (existing : pdict) (request : Patient_update.t) :
  Py.get patient_id data = Some existing ->
  k_id existing <> Absent ->
  Patient_update.valid request = true ->
  PUT_edit patient_id request (Some data)
  = (Reply 500 (ServerError TypeError), Some data).
Proof.
  intros Hg Hid Hv.
  unfold PUT_edit, Patient_update.validate. rewrite Hv.
  unfold serve, update_patient, io_bind, load_data, io_lift. rewrite Hg.
  unfold Patient.init_with_id, merge. simpl.
  destruct (k_id existing); [now elim Hid | reflexivity | reflexivity].
Qed.

Lemma update_validation_fails {L : Libm} (data : patients) (patient_id : string)
    (existing : pdict) (request : Patient_update.t) (e : exn) :
  Py.get patient_id data = Some existing ->
  k_id existing = Absent ->
  Patient_update.valid request = true ->
  Patient.validate (Patient.with_id patient_id (merge request existing)) = Raise e ->
  PUT_edit patient_id request (Some data)
  = (Reply 500 (ServerError ValidationError), Some data).
Proof.
  intros Hg Hid Hv He.
  unfold PUT_edit, Patient_update.validate. rewrite Hv.
  unfold serve, update_patient, io_bind, load_data, io_lift. rewrite Hg.
  unfold Patient.init_with_id. unfold merge at 1. simpl. rewrite Hid.
  rewrite He. now rewrite (validate_raises _ _ He).
Qed.

Lemma update_succeeds {L : Libm} (data : patients) (patient_id : string)
    (existing : pdict) (request : Patient_update.t) (p : Patient.t) (r : pdict) :
  Py.get patient_id data = Some existing ->
  k_id existing = Absent ->
  Patient_update.valid request = true ->
  Patient.validate (Patient.with_id patient_id (merge request existing)) = Ok p ->
  Patient.model_dump p = Ok r ->
  PUT_edit patient_id request (Some data)
  = (Reply 200 (Content (Message "Patient updated successfully")),
     Some (Py.set patient_id r data)).
Proof.
  intros Hg Hid Hv Hp Hr.
  unfold PUT_edit, Patient_update.validate. rewrite Hv.
  unfold serve, update_patient, io_bind, load_data, io_lift, save_data, io_ret.
  rewrite Hg. unfold Patient.init_with_id. unfold merge at 1. simpl. rewrite Hid.
  now rewrite Hp, Hr.
Qed.

(** A request that does not answer 200 leaves the file as it was. *)
Lemma update_failure_keeps_file {L : Libm} (patient_id : string) (request : Patient_update.t)
    (f : file) :
  status_code (fst (PUT_edit patient_id request f)) <> 200%Z ->
  snd (PUT_edit patient_id request f) = f.
Proof.
  unfold PUT_edit, Patient_update.validate.
  destruct (Patient_update.valid request); [|reflexivity].
  unfold serve, update_patient, io_bind, load_data, io_lift, save_data, io_ret, io_raise.
  destruct f as [data|]; [|reflexivity].
  destruct (Py.get patient_id data) as [existing|]; [|reflexivity].
  destruct (Patient.init_with_id _ _) as [p|e]; [|destruct e; reflexivity].
  destruct (Patient.model_dump p) as [r|e]; [|destruct e; reflexivity].
  simpl. intros N. now elim N.
Qed.

Lemma validate_age_out_of_range (kw : pdict) (a : Z) :
  k_age kw = Has a -> (a <= 0 \/ 120 <= a)%Z ->
  exists e, Patient.validate kw = Raise e.
Proof.
  intros Ha Hr. destruct (Patient.validate kw) as [p|e] eqn:E; [|eauto].
  apply validate_inv in E. destruct E as (_ & _ & _ & Ea & _ & _ & _ & Hp & _).
  rewrite Ha in Ea. injection Ea as ->. lia.
Qed.

Lemma update_payload_refused {L : Libm} (patient_id : string) (request : Patient_update.t) (f : file) :
  Patient_update.valid request = false ->
  PUT_edit patient_id request f
  = (if Patient_update_errors_render request then Reply 422 Unprocessable
     else Reply 500 (ServerError ValueError), f).
Proof.
  intros H. unfold PUT_edit, Patient_update.validate. now rewrite H.
Qed.

Lemma update_dump_raises {L : Libm} (data : patients) (patient_id : string)
    (existing : pdict) (request : Patient_update.t) (p : Patient.t) (e : exn) :
  Py.get patient_id data = Some existing ->
  k_id existing = Absent ->
  Patient_update.valid request = true ->
  Patient.validate (Patient.with_id patient_id (merge request existing)) = Ok p ->
  Patient.model_dump p = Raise e ->
  PUT_edit patient_id request (Some data) = (Reply 500 (ServerError e), Some data).
Proof.
  intros Hg Hid Hv Hp Hr.
  unfold PUT_edit, Patient_update.validate. rewrite Hv.
  unfold serve, update_patient, io_bind, load_data, io_lift. rewrite Hg.
  unfold Patient.init_with_id. unfold merge at 1. simpl. rewrite Hid.
  rewrite Hp, Hr.
  destruct (model_dump_raises_kind p e Hr) as [-> | ->]; reflexivity.
Qed.

Lemma overwrite_provided_or_kept {A : Type} (provided old result : cell A) :
  result = overwrite provided old -> provided_or_kept provided old result.
Proof.
  intros ->. split; [now intros -> | now intros v ->].
Qed.

(** ** The claims *)

(** C4, as the code has it: for every stored collection and every valid
    Patient input, create answers 400 exactly when the input's id is already
    in the collection, and then leaves the collection unchanged; otherwise,
    when the bmi can be computed, it appends the record with its derived
    fields, answers 201 with the new id, and a following get_by_id returns
    that record, whose bmi and verdict are those of the formulas; when the
    bmi computation raises, the request ends in a 500 and the collection is
    unchanged. *)
Theorem create_patient_spec {L : Libm} (data : patients) (request : pdict) (p : Patient.t) :
  Patient.validate request = Ok p ->
  let answer := POST_create request (Some data) in
  (status_code (fst answer) = 400%Z <-> Py.contains (Patient.id p) data = true)
  /\ (Py.contains (Patient.id p) data = true ->
        answer = (Reply 400 (Detail "Patient with this ID already exists"), Some data))
  /\ (Py.contains (Patient.id p) data = false ->
        forall b, Patient.bmi p = Ok b ->
        exists r v,
          Patient.model_dump p = Ok r
          /\ answer = (Reply 201 (Content (Created "Patient created successfully" (Patient.id p))),
                       Some (data ++ [(Patient.id p, r)])%list)
          /\ view_patient (Patient.id p) (snd answer) = (Ok (Value (Record_ r)), snd answer)
          /\ k_bmi r = Has b /\ Patient.verdict p = Ok v /\ k_verdict r = Has v)
  /\ (Py.contains (Patient.id p) data = false ->
        forall e, Patient.bmi p = Raise e ->
        answer = (Reply 500 (ServerError e), Some data)).
Proof.
  intros Hv answer.
  assert (Ea : answer = serve (create_patient p) (Some data))
    by (unfold answer, POST_create; now rewrite Hv).
  clearbody answer.
  assert (Hfresh : Py.contains (Patient.id p) data = false ->
                   status_code (fst answer) <> 400%Z).
  { intros Hc. subst answer. destruct (Patient.bmi p) as [b|e] eqn:Hb.
    - destruct (model_dump_of_bmi p b Hb) as [r Hr].
      rewrite (create_fresh data p r Hc Hr). simpl. lia.
    - rewrite (create_dump_raises data p e Hc Hb). simpl. lia. }
  repeat split.
  - intros H4. destruct (Py.contains (Patient.id p) data) eqn:Hc; [reflexivity|].
    now elim (Hfresh eq_refl).
  - intros Hc. subst answer. now rewrite (create_conflict data p Hc).
  - intros Hc. subst answer. now apply create_conflict.
  - intros Hc b Hb. subst answer.
    destruct (model_dump_of_bmi p b Hb) as [r Hr].
    destruct (model_dump_inv p r Hr) as (b' & v & Hb' & Hv' & Er).
    rewrite Hb in Hb'. injection Hb' as <-.
    exists r, v. rewrite (create_fresh data p r Hc Hr). simpl.
    repeat split; trivial; try (subst r; reflexivity).
    apply view_patient_found.
    rewrite <- (set_fresh (Patient.id p) r data) by now apply contains_false.
    apply get_set_same.
  - intros Hc e Hb. subst answer. now apply create_dump_raises.
Qed.

Lemma create_patient_spec_witness :
  exists r,
    POST_create request_P001 (Some [])
    = (Reply 201 (Content (Created "Patient created successfully" "P001")),
       Some [("P001", r)])
    /\ k_bmi r = Has 22.22%float.
Proof.
  destruct (create_patient_spec (L := exact_libm) [] request_P001 patient_P001 eq_refl)
    as (_ & _ & H & _).
  destruct (H eq_refl 22.22%float eq_refl) as (r & v & _ & E & _ & Hb & _).
  exists r. split; [exact E | exact Hb].
Defined.

(** C4 as stated fails: a valid input with a fresh id whose height squares
    to zero is answered 500 and nothing is persisted. *)
Lemma create_tiny_height_not_persisted :
  Patient.validate request_tiny = Ok patient_tiny
  /\ Py.contains (Patient.id patient_tiny) (@nil (string * pdict)) = false
  /\ POST_create request_tiny (Some [])
     = (Reply 500 (ServerError ZeroDivisionError), Some []).
Proof. repeat split. Qed.

(** C9: for every stored collection, delete answers 404 when the id is
    absent and leaves the collection unchanged; when the id is present it
    answers 200, persists the collection without that entry (every other
    entry keeps its value and its place), and a following get_by_id on the
    same id answers 404. *)
Theorem delete_patient_spec (data : patients) (patient_id : string) :
  (Py.contains patient_id data = false ->
     delete_patient patient_id (Some data)
     = (Raise (HTTPException 404 "Patient not found"), Some data))
  /\ (Py.contains patient_id data = true ->
        delete_patient patient_id (Some data)
        = (Ok (JSONResponse 200 (Message "Patient deleted successfully")),
           Some (Py.del patient_id data))
        /\ (forall k, k <> patient_id ->
              Py.get k (Py.del patient_id data) = Py.get k data)
        /\ (NoDup (Py.keys data) ->
              exists l1 v l2,
                data = (l1 ++ (patient_id, v) :: l2)%list
                /\ Py.del patient_id data = (l1 ++ l2)%list)
        /\ view_patient patient_id (Some (Py.del patient_id data))
           = (Raise (HTTPException 404 "Patient not found"),
              Some (Py.del patient_id data))).
Proof.
  split; intros Hc.
  - unfold delete_patient, io_bind, load_data. now rewrite Hc.
  - repeat split.
    + unfold delete_patient, io_bind, load_data. now rewrite Hc.
    + intros k Hk. now apply get_del_other.
    + intros Hn. apply contains_get in Hc. destruct Hc as [v Hg].
      destruct (del_split patient_id v data Hn Hg) as (l1 & l2 & E1 & E2).
      now exists l1, v, l2.
    + apply view_patient_missing, get_del_same.
Qed.

Lemma delete_patient_spec_witness :
  delete_patient "P001" (Some [("P001", stored_P001); ("P002", stored_P002)])
  = (Ok (JSONResponse 200 (Message "Patient deleted successfully")),
     Some [("P002", stored_P002)]).
Proof.
  destruct (delete_patient_spec [("P001", stored_P001); ("P002", stored_P002)] "P001")
    as (_ & H).
  destruct (H eq_refl) as (E & _). exact E.
Defined.

(** C1, as the code has it: for every stored collection containing id whose
    record has no [id] entry of its own, and every partial payload whose
    provided fields are valid: when the merged record satisfies the
    Patient constraints and its bmi can be computed, update overwrites
    exactly the fields the payload provides (the others keep their values),
    recomputes bmi and verdict on the merged record, persists the result in
    the record's place and answers the success message only; when the bmi
    computation raises, or the merged record breaks a Patient constraint,
    the request ends in a 500 and nothing is persisted. *)
Theorem update_patient_spec {L : Libm} (data : patients) (patient_id : string)
    (existing : pdict) (request : Patient_update.t) :
  Py.get patient_id data = Some existing ->
  k_id existing = Absent ->
  Patient_update.valid request = true ->
  let merged := Patient.with_id patient_id (merge request existing) in
  (forall p r,
     Patient.validate merged = Ok p ->
     Patient.model_dump p = Ok r ->
     PUT_edit patient_id request (Some data)
     = (Reply 200 (Content (Message "Patient updated successfully")),
        Some (Py.set patient_id r data))
     /\ Py.get patient_id (Py.set patient_id r data) = Some r
     /\ (forall k, k <> patient_id -> Py.get k (Py.set patient_id r data) = Py.get k data)
     /\ k_id r = Has patient_id
     /\ provided_or_kept (Patient_update.name request) (k_name existing) (k_name r)
     /\ provided_or_kept (Patient_update.city request) (k_city existing) (k_city r)
     /\ provided_or_kept (Patient_update.age request) (k_age existing) (k_age r)
     /\ provided_or_kept (Patient_update.gender request) (k_gender existing) (k_gender r)
     /\ provided_or_kept (Patient_update.height request) (k_height existing) (k_height r)
     /\ provided_or_kept (Patient_update.weight request) (k_weight existing) (k_weight r)
     /\ (exists b v,
           Patient.bmi p = Ok b /\ Patient.verdict p = Ok v
           /\ k_height r = Has (Patient.height p) /\ k_weight r = Has (Patient.weight p)
           /\ k_bmi r = Has b /\ k_verdict r = Has v))
  /\ (forall p e,
        Patient.validate merged = Ok p ->
        Patient.bmi p = Raise e ->
        (e = OverflowError \/ e = ZeroDivisionError)
        /\ PUT_edit patient_id request (Some data) = (Reply 500 (ServerError e), Some data))
  /\ (forall e,
        Patient.validate merged = Raise e ->
        PUT_edit patient_id request (Some data)
        = (Reply 500 (ServerError ValidationError), Some data)).
Proof.
  intros Hg Hid Hv merged. split; [|split].
  - intros p r Hp Hr.
    split; [now apply update_succeeds with (existing := existing) (p := p)|].
    split; [apply get_set_same|].
    split; [intros k Hk; now apply get_set_other|].
    apply validate_inv in Hp. unfold merged in Hp. simpl in Hp.
    destruct Hp as (Ei & En & Ec & Ea & Eg & Eh & Ew & _).
    apply model_dump_inv in Hr. destruct Hr as (b & v & Hb & Hv' & ->). simpl.
    injection Ei as Ei.
    split; [congruence|].
    repeat (split; [apply overwrite_provided_or_kept; congruence|]).
    now exists b, v.
  - intros p e Hp Hb. split; [now apply (bmi_raises p)|].
    apply update_dump_raises with (existing := existing) (p := p); trivial.
    now apply model_dump_raises.
  - intros e He. now apply update_validation_fails with (existing := existing) (e := e).
Qed.

Lemma update_patient_spec_witness :
  PUT_edit "P001" (update_city "Nagpur") (Some [("P001", keyed_P001)])
  = (Reply 200 (Content (Message "Patient updated successfully")),
     Some [("P001",
            mk_pdict (Has "P001") (Has "Asha") (Has "Nagpur") (Has 30%Z) (Has "female")
              (Has 1.8%float) (Has 72%float) (Has 22.22%float) (Has "Normal weight"))]).
Proof.
  destruct (update_patient_spec (L := exact_libm) [("P001", keyed_P001)] "P001" keyed_P001
              (update_city "Nagpur") eq_refl eq_refl eq_refl) as (H & _).
  apply (H (Patient.mk "P001" "Asha" "Nagpur" 30 female 1.8 72)); reflexivity.
Defined.

(** C1 as stated fails: on a record keyed by its id, a payload whose one
    provided field is valid (a height above 0) and whose merged record
    satisfies every Patient constraint is answered 500, because the square
    of that height is zero and the bmi cannot be computed; nothing is
    persisted. *)
Lemma update_accepted_payload_refused :
  Py.get "P001" [("P001", keyed_P001)] = Some keyed_P001
  /\ Patient_update.valid (update_height 1e-200) = true
  /\ (0 <? 1e-200)%float = true
  /\ Patient.validate (Patient.with_id "P001" (merge (update_height 1e-200) keyed_P001))
     = Ok (Patient.mk "P001" "Asha" "Pune" 30 female 1e-200 72)
  /\ PUT_edit "P001" (update_height 1e-200) (Some [("P001", keyed_P001)])
     = (Reply 500 (ServerError ZeroDivisionError), Some [("P001", keyed_P001)]).
Proof. repeat split. Qed.

(** C7, as the code has it: for every stored collection containing id, an
    update whose payload sets an age of 0 or less is refused by the
    Patient_update schema before the handler runs, so before any merge and
    whatever the file holds: the answer is 422, or 500 when the payload also
    sets a height or weight that is refused and is not a finite number, for
    then the 422 cannot be rendered; an update whose payload the schema
    accepts and whose merged record breaks a Patient constraint (an age of
    120 or more, or a stored age of 0 the payload leaves alone) fails
    validation after the merge, on a record with no [id] entry of its own;
    and every update that does not answer 200 leaves the stored collection
    unchanged. *)
Theorem update_invalid_merge {L : Libm} (data : patients) (patient_id : string)
    (existing : pdict) (request : Patient_update.t) :
  Py.get patient_id data = Some existing ->
  (forall a, Patient_update.age request = Has a -> (a <= 0)%Z ->
     Patient_update.validate request = Raise ValidationError
     /\ (forall f,
          PUT_edit patient_id request f
          = (if Patient_update_errors_render request then Reply 422 Unprocessable
             else Reply 500 (ServerError ValueError), f))
     /\ (finite_cell (Patient_update.height request) = true ->
         finite_cell (Patient_update.weight request) = true ->
         forall f, PUT_edit patient_id request f = (Reply 422 Unprocessable, f)))
  /\ (Patient_update.valid request = true -> k_id existing = Absent ->
        forall e,
          Patient.validate (Patient.with_id patient_id (merge request existing)) = Raise e ->
          PUT_edit patient_id request (Some data)
          = (Reply 500 (ServerError ValidationError), Some data))
  /\ (Patient_update.valid request = true -> k_id existing = Absent ->
        forall a, k_age (merge request existing) = Has a -> (a <= 0 \/ 120 <= a)%Z ->
          PUT_edit patient_id request (Some data)
          = (Reply 500 (ServerError ValidationError), Some data))
  /\ (status_code (fst (PUT_edit patient_id request (Some data))) <> 200%Z ->
        snd (PUT_edit patient_id request (Some data)) = Some data).
Proof.
  intros Hg. split; [|repeat split].
  - intros a Ha Hle.
    assert (Hv : Patient_update.valid request = false).
    { unfold Patient_update.valid. rewrite Ha.
      assert (E : (0 <? a)%Z = false) by (apply Z.ltb_ge; lia).
      now rewrite E. }
    split; [unfold Patient_update.validate; now rewrite Hv|].
    split; [intros f; now apply update_payload_refused|].
    intros Fh Fw f. rewrite (update_payload_refused patient_id request f Hv).
    unfold Patient_update_errors_render, quoted_float_renders, finite_cell in *.
    destruct (Patient_update.height request) as [| |h];
      destruct (Patient_update.weight request) as [| |w];
      rewrite ?Fh, ?Fw, ?orb_true_r; reflexivity.
  - intros Hv Hid e He. now apply update_validation_fails with (existing := existing) (e := e).
  - intros Hv Hid a Ha Hr.
    destruct (validate_age_out_of_range
                (Patient.with_id patient_id (merge request existing)) a Ha Hr) as [e He].
    now apply update_validation_fails with (existing := existing) (e := e).
  - apply update_failure_keeps_file.
Qed.

Lemma update_invalid_merge_witness :
  PUT_edit "P001" (update_age 150) (Some [("P001", keyed_P001)])
  = (Reply 500 (ServerError ValidationError), Some [("P001", keyed_P001)])
  /\ PUT_edit "P001" (update_age 0) (Some [("P001", keyed_P001)])
     = (Reply 422 Unprocessable, Some [("P001", keyed_P001)]).
Proof.
  split.
  - destruct (update_invalid_merge (L := exact_libm) [("P001", keyed_P001)] "P001" keyed_P001
                (update_age 150) eq_refl) as (_ & _ & H & _).
    apply (H eq_refl eq_refl 150%Z eq_refl). lia.
  - destruct (update_invalid_merge (L := exact_libm) [("P001", keyed_P001)] "P001" keyed_P001
                (update_age 0) eq_refl) as (H & _).
    destruct (H 0%Z eq_refl) as (_ & _ & H'); [lia|].
    apply H'; reflexivity.
Defined.

(** C7 as stated fails: the update that would push the age to 0 is refused
    by the schema of the payload, before the merge: the answer is 422 and
    the file is not even read. *)
Lemma update_age_0_refused_before_merge :
  Py.get "P001" [("P001", keyed_P001)] = Some keyed_P001
  /\ k_age (merge (update_age 0) keyed_P001) = Has 0%Z
  /\ Patient_update.validate (update_age 0) = Raise ValidationError
  /\ PUT_edit "P001" (update_age 0) (Some [("P001", keyed_P001)])
     = (Reply 422 Unprocessable, Some [("P001", keyed_P001)])
  /\ PUT_edit "P001" (update_age 0) None = (Reply 422 Unprocessable, None).
Proof. repeat split. Qed.

(** C8, where the code departs from it: an update with an empty payload of a
    record that carries an [id] entry, as every record written by create or
    by update does, raises TypeError: the answer is 500 and the collection
    is unchanged. *)
Theorem update_empty_payload_TypeError {L : Libm} (data : patients) (patient_id : string)
    (existing : pdict) :
  Py.get patient_id data = Some existing ->
  k_id existing <> Absent ->
  PUT_edit patient_id Patient_update.empty (Some data)
  = (Reply 500 (ServerError TypeError), Some data).
Proof.
  intros Hg Hid. now apply update_id_key_TypeError with (existing := existing).
Qed.

Lemma update_empty_payload_TypeError_witness :
  let created := snd (POST_create request_P001 (Some [])) in
  created = Some [("P001", stored_P001)]
  /\ PUT_edit "P001" Patient_update.empty created
     = (Reply 500 (ServerError TypeError), created).
Proof.
  split; [reflexivity|].
  apply (update_empty_payload_TypeError (L := exact_libm) [("P001", stored_P001)] "P001" stored_P001).
  - reflexivity.
  - discriminate.
Defined.

(** ** Sorting *)

Lemma sort_patients_valid (data : patients) (sort_by order : string) :
  str_in sort_by valid_fields = true ->
  str_in order ["asc"; "desc"] = true ->
  sort_patients sort_by order (Some data)
  = match Py.sorted (fun x => get_num x sort_by) (Py.values data)
            (if String.eqb order "desc" then true else false) with
    | Ok l => (Ok (Value (Sequence l)), Some data)
    | Raise e => (Raise e, Some data)
    end.
Proof.
  intros Hs Ho.
  unfold sort_patients, io_bind, load_data, io_lift, io_ret.
  rewrite Hs, Ho. simpl. now destruct (Py.sorted _ _ _).
Qed.

Lemma sort_patients_numeric (data : patients) (sort_by order : string) :
  str_in sort_by valid_fields = true ->
  str_in order ["asc"; "desc"] = true ->
  numeric_keys sort_by data ->
  sort_patients sort_by order (Some data)
  = (Ok (Value
       (Sequence (if String.eqb order "desc"
                  then rev (psort (sort_key sort_by) (rev (Py.values data)))
                  else psort (sort_key sort_by) (Py.values data)))),
     Some data).
Proof.
  intros Hs Ho Hn.
  rewrite sort_patients_valid by assumption.
  change (fun x : pdict => get_num x sort_by) with (sort_key sort_by).
  rewrite (sorted_pure (sort_key sort_by) (Py.values data) _ Hn).
  now destruct (String.eqb order "desc").
Qed.

Lemma StronglySorted_weaken {A : Type} (P : A -> Prop) (R R' : A -> A -> Prop)
    (l : list A) :
  (forall x y, P x -> P y -> R x y -> R' x y) ->
  Forall P l -> StronglySorted R l -> StronglySorted R' l.
Proof.
  intros H Hp Hs. induction Hs as [|x xs Hs IH Hx]; [constructor|].
  inversion Hp as [|? ? Px Pxs]; subst.
  constructor; [now apply IH|].
  rewrite Forall_forall in Hx, Pxs |- *. intros y Hy. apply H; auto.
Qed.

Lemma tied_psort (sort_by : string) (k : float) (l : list pdict) :
  tied sort_by k (psort (sort_key sort_by) l) = tied sort_by k l.
Proof.
  unfold tied. apply psort_filter. intros x y Hx Hy.
  unfold ltk. now apply eqb_ltb_false with (k := k).
Qed.

Lemma get_num_fill_zero (sort_by : string) (x : pdict) :
  get_num (fill_zero sort_by x) sort_by = get_num x sort_by.
Proof.
  unfold fill_zero. destruct (num_cell x sort_by) eqn:E; try reflexivity.
  unfold get_num. rewrite E. unfold num_cell, set_num in *.
  destruct (String.eqb sort_by "height"); [reflexivity|].
  destruct (String.eqb sort_by "weight"); reflexivity.
Qed.

Lemma num_cell_set_num (sort_by : string) (x : pdict) (v : cell float) :
  num_cell (set_num x sort_by v) sort_by = v.
Proof.
  unfold num_cell, set_num.
  destruct (String.eqb sort_by "height"); [reflexivity|].
  destruct (String.eqb sort_by "weight"); reflexivity.
Qed.

Lemma values_map_values (f : pdict -> pdict) (data : patients) :
  Py.values (map_values f data) = map f (Py.values data).
Proof.
  unfold Py.values, map_values. rewrite !map_map. reflexivity.
Qed.

(** C5, as the code has it: for every stored collection whose sort keys are
    numbers and every valid sort field, both orders keep the records of
    equal key in the original mapping iteration order (the sort is stable in
    both directions), and desc returns the reversal of what asc returns
    whenever no two records have equal keys. *)
Theorem sort_desc_and_asc (data : patients) (sort_by : string) :
  str_in sort_by valid_fields = true ->
  numeric_keys sort_by data ->
  exists up down,
    sort_patients sort_by "asc" (Some data) = (Ok (Value (Sequence up)), Some data)
    /\ sort_patients sort_by "desc" (Some data) = (Ok (Value (Sequence down)), Some data)
    /\ (forall k, tied sort_by k up = tied sort_by k (Py.values data))
    /\ (forall k, tied sort_by k down = tied sort_by k (Py.values data))
    /\ (ForallOrdPairs (keys_apart sort_by) (Py.values data) -> down = rev up).
Proof.
  intros Hs Hn.
  exists (psort (sort_key sort_by) (Py.values data)),
         (rev (psort (sort_key sort_by) (rev (Py.values data)))).
  split; [now rewrite (sort_patients_numeric data sort_by "asc" Hs eq_refl Hn)|].
  split; [now rewrite (sort_patients_numeric data sort_by "desc" Hs eq_refl Hn)|].
  split; [intros k; apply tied_psort|].
  split.
  - intros k. unfold tied at 1. rewrite rev_filter.
    change (filter (fun x => (key_float sort_by x =? k)%float)
              (psort (sort_key sort_by) (rev (Py.values data))))
      with (tied sort_by k (psort (sort_key sort_by) (rev (Py.values data)))).
    rewrite tied_psort. unfold tied. now rewrite rev_filter, rev_involutive.
  - intros Ha. f_equal. apply psort_rev; [exact Hn | exact Ha].
Qed.

Lemma sort_desc_and_asc_witness :
  exists up down,
    sort_patients "bmi" "asc" (Some [("P001", stored_P001); ("P004", keyed_P004)])
    = (Ok (Value (Sequence up)), Some [("P001", stored_P001); ("P004", keyed_P004)])
    /\ sort_patients "bmi" "desc" (Some [("P001", stored_P001); ("P004", keyed_P004)])
       = (Ok (Value (Sequence down)), Some [("P001", stored_P001); ("P004", keyed_P004)])
    /\ down = rev up.
Proof.
  assert (Hn : numeric_keys "bmi" [("P001", stored_P001); ("P004", keyed_P004)])
    by (repeat constructor).
  destruct (sort_desc_and_asc [("P001", stored_P001); ("P004", keyed_P004)] "bmi"
              eq_refl Hn) as (up & down & Hu & Hd & _ & _ & Hr).
  exists up, down. split; [exact Hu|]. split; [exact Hd|].
  apply Hr. apply FOP_cons.
  - apply Forall_cons; [right; reflexivity | apply Forall_nil].
  - apply FOP_cons; [apply Forall_nil | apply FOP_nil].
Defined.

(** C5 as stated fails: with two records of the same bmi, as two creates
    leave them, desc lists them in the order asc does, which is not the
    reversal of it. *)
Lemma sort_desc_not_reversal_of_asc :
  snd (POST_create request_P002 (snd (POST_create request_P001 (Some []))))
  = Some [("P001", stored_P001); ("P002", stored_P002)]
  /\ listed (sort_patients "bmi" "asc" (Some [("P001", stored_P001); ("P002", stored_P002)]))
     = Some [stored_P001; stored_P002]
  /\ listed (sort_patients "bmi" "desc" (Some [("P001", stored_P001); ("P002", stored_P002)]))
     = Some [stored_P001; stored_P002]
  /\ [stored_P001; stored_P002] <> rev [stored_P001; stored_P002].
Proof.
  repeat split. simpl. intros H. injection H as H _. discriminate H.
Qed.

(** The sort key under "bmi" is the bmi of the record. *)
Lemma key_float_bmi (x : pdict) : key_float "bmi" x = bmi_of x.
Proof.
  unfold key_float, knum, sort_key, get_num, bmi_of.
  change (num_cell x "bmi") with (k_bmi x).
  now destruct (k_bmi x).
Qed.

Lemma bmi_is_number_numkey (x : pdict) :
  bmi_is_number x -> numkey (sort_key "bmi") x.
Proof.
  unfold bmi_is_number, numkey, sort_key, get_num.
  change (num_cell x "bmi") with (k_bmi x).
  destruct (k_bmi x); trivial. intros _. reflexivity.
Qed.

(** C6, as the code has it: for every stored collection whose bmi entries
    are numbers (none is null, none is NaN), sort by "bmi" with order desc
    returns all the patients in non-increasing bmi order, a record without a
    bmi counting as 0; for every sort_by outside height, weight, bmi and for
    every order outside asc, desc the request is answered 400 whatever the
    file holds, readable or not, and the file is left as it is. *)
Theorem sort_bmi_desc_and_bad_parameters (data : patients) (sort_by order : string)
    (f : file) :
  (Forall bmi_is_number (Py.values data) ->
     exists l,
       sort_patients "bmi" "desc" (Some data) = (Ok (Value (Sequence l)), Some data)
       /\ Permutation l (Py.values data)
       /\ StronglySorted (fun x y => (bmi_of y <=? bmi_of x)%float = true) l)
  /\ (str_in sort_by valid_fields = false ->
        sort_patients sort_by order f
        = (Raise (HTTPException 400
                    "Invalid sort field. Must be one of ['height', 'weight', 'bmi']"),
           f))
  /\ (str_in order ["asc"; "desc"] = false ->
        exists detail,
          sort_patients sort_by order f = (Raise (HTTPException 400 detail), f)).
Proof.
  repeat split.
  - intros Hb.
    assert (Hn : numeric_keys "bmi" data).
    { unfold numeric_keys. eapply Forall_impl; [|exact Hb].
      intros x. apply bmi_is_number_numkey. }
    exists (rev (psort (sort_key "bmi") (rev (Py.values data)))).
    split; [now rewrite (sort_patients_numeric data "bmi" "desc" eq_refl eq_refl Hn)|].
    assert (Hr : Forall (numkey (sort_key "bmi")) (rev (Py.values data)))
      by (apply (Permutation_Forall (Permutation_rev _)), Hn).
    assert (Hp : Permutation (rev (psort (sort_key "bmi") (rev (Py.values data))))
                   (Py.values data)).
    { rewrite <- Permutation_rev, psort_perm. apply Permutation_sym, Permutation_rev. }
    split; [exact Hp|].
    apply StronglySorted_weaken
      with (P := numkey (sort_key "bmi"))
           (R := fun x y => ltk (sort_key "bmi") x y = false).
    + intros x y Hx Hy Hxy. rewrite <- !key_float_bmi. unfold key_float, ltk in *.
      apply ltb_false_leb; trivial; now apply numkey_numeric.
    + apply (Permutation_Forall (Permutation_sym Hp)), Hn.
    + apply (StronglySorted_rev (fun x y => ltk (sort_key "bmi") y x = false)).
      now apply psort_sorted.
  - intros Hs. unfold sort_patients, io_raise. now rewrite Hs.
  - intros Ho. unfold sort_patients, io_raise. rewrite Ho.
    destruct (str_in sort_by valid_fields); simpl; eauto.
Qed.

Lemma sort_bmi_desc_and_bad_parameters_witness :
  (exists l,
     sort_patients "bmi" "desc" (Some [("P004", keyed_P004); ("P001", stored_P001)])
     = (Ok (Value (Sequence l)), Some [("P004", keyed_P004); ("P001", stored_P001)])
     /\ Permutation l [keyed_P004; stored_P001]
     /\ StronglySorted (fun x y => (bmi_of y <=? bmi_of x)%float = true) l)
  /\ (exists detail, sort_patients "age" "desc" None = (Raise (HTTPException 400 detail), None))
  /\ (exists detail, sort_patients "bmi" "down" None = (Raise (HTTPException 400 detail), None)).
Proof.
  destruct (sort_bmi_desc_and_bad_parameters
              [("P004", keyed_P004); ("P001", stored_P001)] "age" "down" None)
    as (H1 & H2 & H3).
  split; [|split].
  - apply H1. repeat constructor.
  - eexists. exact (H2 eq_refl).
  - destruct (sort_bmi_desc_and_bad_parameters [] "bmi" "down" None) as (_ & _ & H).
    apply (H eq_refl).
Defined.

(** C6 as stated fails: three valid requests, the second with an infinite
    height and weight, store the bmis 12.35, NaN and 22.22; sort by "bmi"
    with order desc then lists 12.35 before 22.22. *)
Lemma sort_bmi_desc_not_ordered :
  snd (POST_create request_P001
         (snd (POST_create request_infinite
                 (snd (POST_create request_light (Some []))))))
  = Some [("P007", stored_light); ("P008", stored_infinite); ("P001", stored_P001)]
  /\ sort_patients "bmi" "desc"
       (Some [("P007", stored_light); ("P008", stored_infinite); ("P001", stored_P001)])
     = (Ok (Value (Sequence [stored_light; stored_infinite; stored_P001])),
        Some [("P007", stored_light); ("P008", stored_infinite); ("P001", stored_P001)])
  /\ (bmi_of stored_light <? bmi_of stored_P001)%float = true
  /\ (bmi_of stored_P001 <=? bmi_of stored_light)%float = false.
Proof. repeat split. Qed.

(** C10: for every stored collection and every sort request, a record that
    lacks the requested sort field has the sort key 0, the key it has once 0
    is written under that field, and the request lists the records in the
    order it lists them once 0 is written into every record that lacks the
    field. *)
Theorem sort_missing_field_as_zero (data : patients) (sort_by order : string)
    (x : pdict) :
  (num_cell x sort_by = Absent ->
     get_num x sort_by = Py.VNum 0
     /\ num_cell (fill_zero sort_by x) sort_by = Has 0%float
     /\ get_num (fill_zero sort_by x) sort_by = Py.VNum 0)
  /\ (num_cell x sort_by <> Absent -> fill_zero sort_by x = x)
  /\ fst (sort_patients sort_by order (Some (map_values (fill_zero sort_by) data)))
     = map_listing (fill_zero sort_by) (fst (sort_patients sort_by order (Some data))).
Proof.
  split; [|split].
  - intros Ha. assert (E : get_num x sort_by = Py.VNum 0)
      by (unfold get_num; now rewrite Ha).
    repeat split; trivial.
    + unfold fill_zero. rewrite Ha. apply num_cell_set_num.
    + now rewrite get_num_fill_zero.
  - intros Hn. unfold fill_zero. destruct (num_cell x sort_by); [now elim Hn| |]; reflexivity.
  - destruct (str_in sort_by valid_fields) eqn:Hs.
    2: { unfold sort_patients, io_raise. now rewrite Hs. }
    destruct (str_in order ["asc"; "desc"]) eqn:Ho.
    2: { unfold sort_patients, io_raise. now rewrite Hs, Ho. }
    rewrite !sort_patients_valid by assumption.
    rewrite values_map_values.
    rewrite (sorted_map (fun x => get_num x sort_by) (fill_zero sort_by))
      by (intros y; apply get_num_fill_zero).
    now destruct (Py.sorted _ _ _) as [l|e].
Qed.

Lemma sort_missing_field_as_zero_witness :
  get_num keyed_P004 "bmi" = Py.VNum 0
  /\ listed (sort_patients "bmi" "asc" (Some [("P001", stored_P001); ("P004", keyed_P004)]))
     = Some [keyed_P004; stored_P001].
Proof.
  destruct (sort_missing_field_as_zero [] "bmi" "asc" keyed_P004) as (H & _).
  destruct (H eq_refl) as (E & _). split; [exact E | reflexivity].
Defined.

(** ** Further properties of the service *)

Lemma get_In {V : Type} (k : string) (v : V) (d : Py.dict V) :
  Py.get k d = Some v -> In (k, v) d.
Proof.
  induction d as [|[k0 v0] d IH]; simpl; [discriminate|].
  destruct (String.eqb_spec k k0) as [->|N].
  - intros [= ->]. now left.
  - intros H. right. now apply IH.
Qed.

Lemma get_None_not_In {V : Type} (k : string) (d : Py.dict V) :
  Py.get k d = None -> ~ In k (Py.keys d).
Proof.
  induction d as [|[k0 v0] d IH]; simpl; [tauto|].
  destruct (String.eqb_spec k k0) as [->|N]; [discriminate|].
  intros H [E|I]; [now elim N | now apply IH].
Qed.

Lemma keys_set_present {V : Type} (k : string) (v v' : V) (d : Py.dict V) :
  Py.get k d = Some v -> Py.keys (Py.set k v' d) = Py.keys d.
Proof.
  induction d as [|[k0 v0] d IH]; simpl; [discriminate|].
  destruct (String.eqb k k0); simpl; [reflexivity|].
  intros H. now rewrite IH.
Qed.

Lemma keys_del {V : Type} (k : string) (d : Py.dict V) :
  Py.keys (Py.del k d) = filter (fun k' => negb (String.eqb k k')) (Py.keys d).
Proof.
  unfold Py.del, Py.keys. induction d as [|[k0 v0] d IH]; simpl; [reflexivity|].
  destruct (String.eqb k k0); simpl; now rewrite IH.
Qed.

Lemma del_after_append {V : Type} (k : string) (v : V) (d : Py.dict V) :
  Py.get k d = None -> Py.del k (d ++ [(k, v)])%list = d.
Proof.
  intros H. unfold Py.del. rewrite filter_app. simpl. rewrite String.eqb_refl. simpl.
  rewrite app_nil_r. apply (del_absent k d), get_None_not_In, H.
Qed.

(** What a validation that succeeds needs, the other way round. *)
Lemma validate_of_fields (i n c g : string) (a : Z) (h w : float) (g' : Gender)
    (b : cell float) (v : cell string) :
  Gender_of_string g = Some g' ->
  (0 < a < 120)%Z -> (0 <? h)%float = true -> (0 <? w)%float = true ->
  Patient.validate (mk_pdict (Has i) (Has n) (Has c) (Has a) (Has g) (Has h) (Has w) b v)
  = Ok (Patient.mk i n c a g' h w).
Proof.
  intros Hg [H0 H1] Hh Hw. unfold Patient.validate. simpl. rewrite Hg, Hh, Hw.
  apply Z.ltb_lt in H0, H1. now rewrite H0, H1.
Qed.

(** X1: a patient that was validated, dumped and validated again is the
    same patient, whatever stands under [bmi] and [verdict] in the dump;
    and the dump carries the seven fields of the request as they were
    sent. *)
Theorem dump_validate_round_trip {L : Libm} (body : pdict) (p : Patient.t) (r : pdict) :
  Patient.validate body = Ok p ->
  Patient.model_dump p = Ok r ->
  Patient.validate r = Ok p
  /\ (forall b v, Patient.validate (with_derived b v r) = Ok p)
  /\ k_id r = k_id body /\ k_name r = k_name body /\ k_city r = k_city body
  /\ k_age r = k_age body /\ k_gender r = k_gender body
  /\ k_height r = k_height body /\ k_weight r = k_weight body.
Proof.
  intros Hv Hr. apply validate_inv in Hv.
  destruct Hv as (Ei & En & Ec & Ea & Eg & Eh & Ew & Hage & Hh & Hw).
  apply model_dump_inv in Hr. destruct Hr as (b0 & v0 & _ & _ & ->).
  assert (V : forall b v,
             Patient.validate
               (mk_pdict (Has (Patient.id p)) (Has (Patient.name p)) (Has (Patient.city p))
                  (Has (Patient.age p)) (Has (Gender_to_string (Patient.gender p)))
                  (Has (Patient.height p)) (Has (Patient.weight p)) b v) = Ok p).
  { intros b v.
    rewrite (validate_of_fields _ _ _ _ _ _ _ (Patient.gender p));
      auto using Gender_of_to_string.
    now destruct p. }
  split; [apply V|]. split; [intros b v; apply V|].
  simpl. repeat split; congruence.
Qed.

Lemma dump_validate_round_trip_witness :
  Patient.validate stored_P001 = Ok patient_P001.
Proof.
  apply (dump_validate_round_trip (L := exact_libm) request_P001 patient_P001 stored_P001);
    reflexivity.
Defined.

(** X2: the five reading handlers never write: whatever the file holds or
    lacks and whatever the parameters are, the file is the same after as
    before. *)
Theorem reading_keeps_file (f : file) (patient_id sort_by order : string) :
  snd (hello f) = f /\ snd (about f) = f /\ snd (view f) = f
  /\ snd (view_patient patient_id f) = f
  /\ snd (sort_patients sort_by order f) = f.
Proof.
  repeat split.
  - unfold view, io_bind, load_data. now destruct f.
  - unfold view_patient, io_bind, load_data. destruct f as [data|]; [|reflexivity].
    now destruct (Py.get patient_id data).
  - unfold sort_patients, io_bind, load_data, io_lift, io_raise.
    destruct (negb (str_in sort_by valid_fields)); [reflexivity|].
    destruct (negb (str_in order ["asc"; "desc"])); [reflexivity|].
    destruct f as [data|]; [|reflexivity].
    now destruct (Py.sorted _ _ _).
Qed.

(** X3: when [patients.json] is missing or unreadable no request creates
    it: the handlers that read raise the storage error before anything
    else, so a valid create, a valid update and a delete answer 500, and
    the file stays as it is after any request. *)
Theorem missing_file_stays_missing {L : Libm} (q : request) (body : pdict)
    (p : Patient.t) (u : Patient_update.t) (patient_id : string) :
  effect q None = None
  /\ (Patient.validate body = Ok p ->
        POST_create body None = (Reply 500 (ServerError StorageError), None))
  /\ (Patient_update.valid u = true ->
        PUT_edit patient_id u None = (Reply 500 (ServerError StorageError), None))
  /\ DELETE_delete patient_id None = (Reply 500 (ServerError StorageError), None)
  /\ view None = (Raise StorageError, None)
  /\ view_patient patient_id None = (Raise StorageError, None).
Proof.
  split.
  - destruct q as [| | |i|s o|b|i b|i]; simpl.
    + reflexivity.
    + reflexivity.
    + reflexivity.
    + reflexivity.
    + apply (reading_keeps_file None "" s o).
    + unfold POST_create. now destruct (Patient.validate b).
    + unfold PUT_edit, Patient_update.validate. now destruct (Patient_update.valid b).
    + reflexivity.
  - repeat split.
    + intros Hv. unfold POST_create. now rewrite Hv.
    + intros Hv. unfold PUT_edit, Patient_update.validate. now rewrite Hv.
Qed.

Lemma missing_file_stays_missing_witness :
  POST_create request_P001 None = (Reply 500 (ServerError StorageError), None).
Proof.
  destruct (missing_file_stays_missing (L := exact_libm) Root request_P001 patient_P001
              Patient_update.empty "P001") as (_ & H & _).
  apply H. reflexivity.
Defined.

Lemma written_has_id {L : Libm} (k : string) (r : pdict) :
  written k r -> k_id r = Has k.
Proof.
  intros (p & Hv & _ & <-). now apply validate_inv in Hv.
Qed.

(** What an update that answers 200 went through. *)
Lemma update_200_inv {L : Libm} (patient_id : string) (request : Patient_update.t)
    (f : file) :
  status_code (fst (PUT_edit patient_id request f)) = 200%Z ->
  exists data existing p r,
    f = Some data /\ Py.get patient_id data = Some existing
    /\ k_id existing = Absent
    /\ Patient_update.valid request = true
    /\ Patient.validate (Patient.with_id patient_id (merge request existing)) = Ok p
    /\ Patient.model_dump p = Ok r
    /\ snd (PUT_edit patient_id request f) = Some (Py.set patient_id r data).
Proof.
  unfold PUT_edit, Patient_update.validate.
  destruct (Patient_update.valid request) eqn:Hv;
    [|unfold refuse; destruct (Patient_update_errors_render request); simpl; discriminate].
  unfold serve, update_patient, io_bind, load_data, io_lift, save_data, io_ret, io_raise.
  destruct f as [data|]; [|simpl; discriminate].
  destruct (Py.get patient_id data) as [existing|] eqn:Hg; [|simpl; discriminate].
  unfold Patient.init_with_id. unfold merge at 1. simpl k_id.
  destruct (k_id existing) eqn:Hid; try (simpl; discriminate).
  destruct (Patient.validate _) as [p|e] eqn:Hp.
  2: { rewrite (validate_raises _ _ Hp). simpl. discriminate. }
  destruct (Patient.model_dump p) as [r|e] eqn:Hr.
  2: { destruct (model_dump_raises_kind p e Hr) as [-> | ->]; simpl; discriminate. }
  intros _. now exists data, existing, p, r.
Qed.

(** On a record that carries an [id] entry no update answers 200. *)
Lemma update_with_id_entry {L : Libm} (data : patients) (patient_id : string)
    (existing : pdict) (request : Patient_update.t) :
  Py.get patient_id data = Some existing -> k_id existing <> Absent ->
  status_code (fst (PUT_edit patient_id request (Some data))) <> 200%Z.
Proof.
  intros Hg Hid H. apply update_200_inv in H.
  destruct H as (data' & existing' & p & r & [= <-] & Hg' & Hid' & _).
  rewrite Hg in Hg'. injection Hg' as <-. contradiction.
Qed.

Lemma edit_on_kept {L : Libm} (data : patients) (patient_id : string)
    (request : Patient_update.t) :
  service_kept data ->
  status_code (fst (PUT_edit patient_id request (Some data))) <> 200%Z
  /\ snd (PUT_edit patient_id request (Some data)) = Some data.
Proof.
  intros [_ Hw].
  assert (N : status_code (fst (PUT_edit patient_id request (Some data))) <> 200%Z).
  { intros H. pose proof H as H'. apply update_200_inv in H'.
    destruct H' as (data' & existing & p & r & [= <-] & Hg & Hid & _).
    apply get_In in Hg. rewrite Forall_forall in Hw.
    apply Hw, written_has_id in Hg. simpl in Hg. congruence. }
  split; [exact N | now apply update_failure_keeps_file].
Qed.

Lemma kept_after_delete {L : Libm} (data : patients) (patient_id : string) :
  service_kept data -> service_kept (Py.del patient_id data).
Proof.
  intros [Hn Hw]. split.
  - rewrite keys_del. now apply NoDup_filter.
  - unfold Py.del. rewrite Forall_forall in Hw |- *.
    intros kv Hkv. apply filter_In in Hkv. now apply Hw.
Qed.

Lemma kept_after_append {L : Libm} (data : patients) (body : pdict) (p : Patient.t)
    (r : pdict) :
  service_kept data ->
  Patient.validate body = Ok p -> Patient.model_dump p = Ok r ->
  Py.get (Patient.id p) data = None ->
  service_kept (data ++ [(Patient.id p, r)])%list.
Proof.
  intros [Hn Hw] Hv Hr Hg. split.
  - unfold Py.keys. rewrite map_app. simpl.
    apply NoDup_app; [exact Hn | repeat constructor; intros [] |].
    intros k Hk [<-|[]]. now apply (get_None_not_In _ _ Hg).
  - apply Forall_app. split; [exact Hw|]. constructor; [|constructor].
    exists p. simpl. split; [|now split].
    now apply (dump_validate_round_trip body p r).
Qed.

Lemma effect_kept {L : Libm} (q : request) (data : patients) :
  service_kept data ->
  exists data', effect q (Some data) = Some data' /\ service_kept data'.
Proof.
  intros Hk.
  destruct q as [| | |i|s o|b|i b|i]; simpl.
  - now exists data.
  - now exists data.
  - now exists data.
  - exists data. split; [apply (reading_keeps_file (Some data) i "" "") | exact Hk].
  - exists data. split; [apply (reading_keeps_file (Some data) "" s o) | exact Hk].
  - unfold POST_create. destruct (Patient.validate b) as [p|e] eqn:Hv; [|now exists data].
    destruct (Py.contains (Patient.id p) data) eqn:Hc.
    + rewrite (create_conflict data p Hc). now exists data.
    + destruct (Patient.bmi p) as [x|e] eqn:Hb.
      * destruct (model_dump_of_bmi p x Hb) as [r Hr].
        rewrite (create_fresh data p r Hc Hr). simpl. eexists. split; [reflexivity|].
        apply (kept_after_append data b p r); trivial. now apply contains_false.
      * rewrite (create_dump_raises data p e Hc Hb). now exists data.
  - exists data. split; [apply (edit_on_kept data i b Hk) | exact Hk].
  - unfold DELETE_delete, serve, delete_patient, io_bind, load_data, io_raise, save_data, io_ret.
    destruct (Py.contains i data); simpl.
    + eexists. split; [reflexivity | now apply kept_after_delete].
    + now exists data.
Qed.

(** X4: the service keeps its collection well formed: if every record is the
    dump of a valid patient, stored under that patient's id, and no id
    occurs twice, then the same holds after any sequence of requests,
    whatever they are and however they end; the empty collection is such a
    collection. *)
Theorem service_keeps_collection {L : Libm} (qs : list request) (data : patients) :
  service_kept data ->
  exists data', run qs (Some data) = Some data' /\ service_kept data'.
Proof.
  revert data. induction qs as [|q qs IH]; intros data Hk.
  - now exists data.
  - destruct (effect_kept q data Hk) as (data1 & E1 & Hk1).
    destruct (IH data1 Hk1) as (data' & E & Hk').
    exists data'. split; [|exact Hk']. unfold run in *. simpl. now rewrite E1.
Qed.

Lemma kept_empty {L : Libm} : service_kept [].
Proof. split; constructor. Qed.

Lemma service_keeps_collection_witness :
  exists data',
    run (L := exact_libm) [Create request_P001; Create request_P002; Delete "P001"] (Some [])
    = Some data'
    /\ service_kept data'.
Proof.
  apply (service_keeps_collection (L := exact_libm)). apply kept_empty.
Defined.

(** X5: on a collection the service built no update ever succeeds: after
    any sequence of requests that starts from such a collection (the empty
    one, say), [PUT /edit] answers something other than 200 for every id and
    every payload, and leaves the file as it is. *)
Theorem edit_never_succeeds {L : Libm} (qs : list request) (data : patients)
    (patient_id : string) (request : Patient_update.t) :
  service_kept data ->
  let f := run qs (Some data) in
  status_code (fst (PUT_edit patient_id request f)) <> 200%Z
  /\ snd (PUT_edit patient_id request f) = f.
Proof.
  intros Hk f.
  destruct (service_keeps_collection qs data Hk) as (data' & E & Hk').
  subst f. rewrite E. now apply edit_on_kept.
Qed.

Lemma edit_never_succeeds_witness :
  status_code
    (fst (PUT_edit (L := exact_libm) "P001" (update_city "Nagpur")
            (run (L := exact_libm) [Create request_P001] (Some []))))
  <> 200%Z.
Proof.
  apply (edit_never_succeeds (L := exact_libm) [Create request_P001] [] "P001"
           (update_city "Nagpur")).
  apply kept_empty.
Defined.

(** X6: deleting a patient right after it was created gives back the
    collection as it was before the create, entry for entry and in the same
    order. *)
Theorem create_then_delete {L : Libm} (data : patients) (body : pdict) (p : Patient.t)
    (b : float) :
  Patient.validate body = Ok p ->
  Py.contains (Patient.id p) data = false ->
  Patient.bmi p = Ok b ->
  DELETE_delete (Patient.id p) (snd (POST_create body (Some data)))
  = (Reply 200 (Content (Message "Patient deleted successfully")), Some data).
Proof.
  intros Hv Hc Hb. destruct (model_dump_of_bmi p b Hb) as [r Hr].
  unfold POST_create. rewrite Hv, (create_fresh data p r Hc Hr). simpl.
  unfold DELETE_delete, serve, delete_patient, io_bind, load_data, save_data, io_ret.
  assert (Hin : Py.contains (Patient.id p) (data ++ [(Patient.id p, r)])%list = true).
  { apply contains_get. exists r.
    rewrite <- (set_fresh (Patient.id p) r data) by now apply contains_false.
    apply get_set_same. }
  rewrite Hin. simpl.
  rewrite del_after_append by now apply contains_false. reflexivity.
Qed.

Lemma create_then_delete_witness :
  DELETE_delete "P002"
    (snd (POST_create (L := exact_libm) request_P002 (Some [("P001", stored_P001)])))
  = (Reply 200 (Content (Message "Patient deleted successfully")),
     Some [("P001", stored_P001)]).
Proof.
  apply (create_then_delete (L := exact_libm) [("P001", stored_P001)] request_P002
           (Patient.mk "P002" "Ravi" "Delhi" 41 male 1.8 72) 22.22%float); reflexivity.
Defined.

(** X7: create is not repeatable: once a create has answered 201, the same
    request again, and any other valid request with that id, is answered
    400 and changes nothing. *)
Theorem create_twice_conflicts {L : Libm} (data : patients) (body body' : pdict)
    (p p' : Patient.t) :
  Patient.validate body = Ok p ->
  Patient.validate body' = Ok p' ->
  Patient.id p' = Patient.id p ->
  status_code (fst (POST_create body (Some data))) = 201%Z ->
  let f := snd (POST_create body (Some data)) in
  POST_create body' f
  = (Reply 400 (Detail "Patient with this ID already exists"), f).
Proof.
  intros Hv Hv' Hid H f. subst f.
  remember (POST_create body (Some data)) as first eqn:E.
  unfold POST_create in E. rewrite Hv in E.
  destruct (Py.contains (Patient.id p) data) eqn:Hc.
  { rewrite (create_conflict data p Hc) in E. subst first. discriminate H. }
  destruct (Patient.bmi p) as [x|e] eqn:Hb.
  2: { rewrite (create_dump_raises data p e Hc Hb) in E. subst first. discriminate H. }
  destruct (model_dump_of_bmi p x Hb) as [r Hr].
  rewrite (create_fresh data p r Hc Hr) in E. subst first. simpl.
  unfold POST_create. rewrite Hv'. apply create_conflict. rewrite Hid.
  apply contains_get. exists r.
  rewrite <- (set_fresh (Patient.id p) r data) by now apply contains_false.
  apply get_set_same.
Qed.

Lemma create_twice_conflicts_witness :
  POST_create (L := exact_libm) request_P001
    (snd (POST_create (L := exact_libm) request_P001 (Some [])))
  = (Reply 400 (Detail "Patient with this ID already exists"),
     snd (POST_create (L := exact_libm) request_P001 (Some []))).
Proof.
  apply (create_twice_conflicts (L := exact_libm) [] request_P001 request_P001
           patient_P001 patient_P001); reflexivity.
Defined.

(** X8: a record can be updated at most once: an update that answers 200
    stores the record with an [id] entry, and from then on every update of
    that id, whatever its payload, fails and changes nothing. *)
Theorem update_at_most_once {L : Libm} (f : file) (patient_id : string)
    (request request' : Patient_update.t) :
  status_code (fst (PUT_edit patient_id request f)) = 200%Z ->
  let f' := snd (PUT_edit patient_id request f) in
  status_code (fst (PUT_edit patient_id request' f')) <> 200%Z
  /\ snd (PUT_edit patient_id request' f') = f'.
Proof.
  intros H f'. apply update_200_inv in H.
  destruct H as (data & existing & p & r & -> & Hg & Hid & Hv & Hp & Hr & E).
  subst f'. rewrite E.
  assert (N : status_code
                (fst (PUT_edit patient_id request' (Some (Py.set patient_id r data))))
              <> 200%Z).
  { apply update_with_id_entry with (existing := r); [apply get_set_same|].
    apply model_dump_inv in Hr. destruct Hr as (b & v & _ & _ & ->). discriminate. }
  split; [exact N | now apply update_failure_keeps_file].
Qed.

Lemma update_at_most_once_witness :
  status_code
    (fst (PUT_edit (L := exact_libm) "P001" (update_city "Agra")
            (snd (PUT_edit (L := exact_libm) "P001" (update_city "Nagpur")
                    (Some [("P001", keyed_P001)])))))
  <> 200%Z.
Proof.
  apply (update_at_most_once (L := exact_libm) (Some [("P001", keyed_P001)]) "P001"
           (update_city "Nagpur") (update_city "Agra")).
  reflexivity.
Defined.

(** X9: an update never adds, removes or reorders the ids of the
    collection, however it ends; a delete keeps the other ids in their
    order; a create leaves the ids as they are or appends its own id after
    them. *)
Theorem ids_and_their_order {L : Libm} (data : patients) (patient_id : string)
    (request : Patient_update.t) (body : pdict) :
  option_map Py.keys (snd (PUT_edit patient_id request (Some data))) = Some (Py.keys data)
  /\ option_map Py.keys (snd (DELETE_delete patient_id (Some data)))
     = Some (filter (fun k => negb (String.eqb patient_id k)) (Py.keys data))
  /\ (option_map Py.keys (snd (POST_create body (Some data))) = Some (Py.keys data)
      \/ exists p, Patient.validate body = Ok p
           /\ option_map Py.keys (snd (POST_create body (Some data)))
              = Some (Py.keys data ++ [Patient.id p])%list).
Proof.
  split; [|split].
  - destruct (Z.eq_dec (status_code (fst (PUT_edit patient_id request (Some data)))) 200)
      as [H|H].
    + apply update_200_inv in H.
      destruct H as (data' & existing & p & r & [= <-] & Hg & _ & _ & _ & _ & E).
      rewrite E. simpl. f_equal. now apply keys_set_present with (v := existing).
    + now rewrite (update_failure_keeps_file patient_id request (Some data) H).
  - unfold DELETE_delete, serve, delete_patient, io_bind, load_data, save_data, io_ret,
      io_raise.
    destruct (Py.contains patient_id data) eqn:Hc; simpl.
    + now rewrite keys_del.
    + f_equal. rewrite <- keys_del. f_equal. symmetry.
      apply del_absent, get_None_not_In. now apply contains_false.
  - unfold POST_create. destruct (Patient.validate body) as [p|e] eqn:Hv; [|now left].
    destruct (Py.contains (Patient.id p) data) eqn:Hc.
    + rewrite (create_conflict data p Hc). now left.
    + destruct (Patient.bmi p) as [x|e] eqn:Hb.
      * destruct (model_dump_of_bmi p x Hb) as [r Hr].
        rewrite (create_fresh data p r Hc Hr). right. exists p. split; [reflexivity|].
        simpl. unfold Py.keys. now rewrite map_app.
      * rewrite (create_dump_raises data p e Hc Hb). now left.
Qed.

Lemma ids_and_their_order_witness :
  option_map Py.keys
    (snd (PUT_edit (L := exact_libm) "P001" (update_city "Nagpur")
            (Some [("P004", keyed_P004); ("P001", keyed_P001)])))
  = Some ["P004"; "P001"].
Proof.
  apply (ids_and_their_order (L := exact_libm) [("P004", keyed_P004); ("P001", keyed_P001)]
           "P001" (update_city "Nagpur") request_P001).
Defined.

Lemma merged_null (u : Patient_update.t) (existing : pdict) (patient_id : string) :
  sets_null u ->
  forall p, Patient.validate (Patient.with_id patient_id (merge u existing)) <> Ok p.
Proof.
  intros Hn p Hp. apply validate_inv in Hp. simpl in Hp.
  destruct Hp as (_ & En & Ec & Ea & Eg & Eh & Ew & _).
  destruct Hn as [H|[H|[H|[H|[H|H]]]]]; rewrite H in *; discriminate.
Qed.

(** X10: a [null] never gets into the collection through an update: the
    Patient_update schema lets a payload set a field to [null], but such an
    update never answers 200 and never changes the file, whatever the id and
    whatever the file holds. *)
Theorem update_null_never_stored {L : Libm} (f : file) (patient_id : string)
    (request : Patient_update.t) :
  sets_null request ->
  status_code (fst (PUT_edit patient_id request f)) <> 200%Z
  /\ snd (PUT_edit patient_id request f) = f.
Proof.
  intros Hn.
  assert (N : status_code (fst (PUT_edit patient_id request f)) <> 200%Z).
  { intros H. apply update_200_inv in H.
    destruct H as (data & existing & p & r & _ & _ & _ & _ & Hp & _).
    now apply (merged_null request existing patient_id Hn p). }
  split; [exact N | now apply update_failure_keeps_file].
Qed.

Lemma update_null_never_stored_witness :
  Patient_update.valid (Patient_update.mk Null Absent Absent Absent Absent Absent) = true
  /\ PUT_edit (L := exact_libm) "P001"
       (Patient_update.mk Null Absent Absent Absent Absent Absent)
       (Some [("P001", keyed_P001)])
     = (Reply 500 (ServerError ValidationError), Some [("P001", keyed_P001)]).
Proof.
  split; [reflexivity|].
  destruct (update_null_never_stored (L := exact_libm) (Some [("P001", keyed_P001)]) "P001"
              (Patient_update.mk Null Absent Absent Absent Absent Absent))
    as [_ E]; [now left|].
  reflexivity.
Defined.

(** *** More on sorting *)

Section SortErrors.
Context {A : Type}.
Variable key : A -> Py.value.

Lemma lt_raises (a b : Py.value) (e : exn) : Py.lt a b = Raise e -> e = TypeError.
Proof. destruct a, b; simpl; congruence. Qed.

Lemma lt_None_l (b : Py.value) : Py.lt Py.VNone b = Raise TypeError.
Proof. reflexivity. Qed.

Lemma lt_None_r (a : Py.value) : Py.lt a Py.VNone = Raise TypeError.
Proof. now destruct a. Qed.

Lemma insert_raises (x : A) (l : list A) (e : exn) :
  Py.insert key x l = Raise e -> e = TypeError.
Proof.
  induction l as [|y ys IH]; simpl; [discriminate|].
  destruct (Py.lt (key y) (key x)) as [[|]|e'] eqn:E; simpl.
  - destruct (Py.insert key x ys); simpl; [discriminate|]. intros [= <-]. now apply IH.
  - discriminate.
  - intros [= <-]. now apply lt_raises in E.
Qed.

Lemma sort_raises (l : list A) (e : exn) : Py.sort key l = Raise e -> e = TypeError.
Proof.
  induction l as [|x xs IH]; simpl; [discriminate|].
  destruct (Py.sort key xs) as [s|e']; simpl.
  - apply insert_raises.
  - intros [= <-]. now apply IH.
Qed.

Lemma insert_length (x : A) (l s : list A) :
  Py.insert key x l = Ok s -> List.length s = S (List.length l).
Proof.
  revert s. induction l as [|y ys IH]; intros s; simpl; [now intros [= <-]|].
  destruct (Py.lt (key y) (key x)) as [[|]|e']; simpl; try discriminate.
  - destruct (Py.insert key x ys) as [s'|]; simpl; [|discriminate].
    intros [= <-]. simpl. now rewrite (IH s').
  - now intros [= <-].
Qed.

Lemma sort_length (l s : list A) : Py.sort key l = Ok s -> List.length s = List.length l.
Proof.
  revert s. induction l as [|x xs IH]; intros s; simpl; [now intros [= <-]|].
  destruct (Py.sort key xs) as [s'|]; simpl; [|discriminate].
  intros H. apply insert_length in H. now rewrite H, (IH s').
Qed.

(** Every element of two or more is compared, so one [None] is enough. *)
Lemma sort_None (l : list A) (x : A) :
  In x l -> key x = Py.VNone -> (2 <= List.length l)%nat ->
  Py.sort key l = Raise TypeError.
Proof.
  induction l as [|a l' IH]; intros Hin Hx Hlen; [inversion Hin|].
  simpl. destruct (Py.sort key l') as [s|e] eqn:Es; simpl.
  - pose proof (sort_length l' s Es) as Hs.
    destruct s as [|y s']; [simpl in *; lia|]. simpl.
    destruct Hin as [->|Hin].
    + now rewrite Hx, lt_None_r.
    + destruct l' as [|b [|c l'']]; [inversion Hin| |].
      * destruct Hin as [->|[]]. simpl in Es. injection Es as <- <-.
        now rewrite Hx.
      * assert (R : Ok (y :: s') = Raise TypeError)
          by (apply IH; [exact Hin | exact Hx | simpl; lia]).
        discriminate R.
  - f_equal. now apply sort_raises in Es.
Qed.

Lemma sorted_None (l : list A) (x : A) (reverse : bool) :
  In x l -> key x = Py.VNone -> (2 <= List.length l)%nat ->
  Py.sorted key l reverse = Raise TypeError.
Proof.
  intros Hin Hx Hlen. unfold Py.sorted. destruct reverse.
  - rewrite (sort_None (rev l) x); [reflexivity | now apply in_rev in Hin | exact Hx |].
    now rewrite length_rev.
  - now apply sort_None with (x := x).
Qed.

Lemma sorted_short (l : list A) (reverse : bool) :
  (List.length l <= 1)%nat -> Py.sorted key l reverse = Ok l.
Proof.
  intros H. destruct l as [|a [|b l']]; [| |simpl in H; lia];
    now destruct reverse.
Qed.
End SortErrors.

(** X11: for every valid sort field and both orders, on a collection whose
    keys under that field are numbers, sort returns every patient exactly
    once (a permutation of the collection's records), in non-decreasing key
    order for asc and in non-increasing key order for desc. *)
Theorem sort_returns_all_in_order (data : patients) (sort_by : string) :
  str_in sort_by valid_fields = true ->
  numeric_keys sort_by data ->
  exists up down,
    sort_patients sort_by "asc" (Some data) = (Ok (Value (Sequence up)), Some data)
    /\ sort_patients sort_by "desc" (Some data) = (Ok (Value (Sequence down)), Some data)
    /\ Permutation up (Py.values data) /\ Permutation down (Py.values data)
    /\ StronglySorted
         (fun x y => (key_float sort_by x <=? key_float sort_by y)%float = true) up
    /\ StronglySorted
         (fun x y => (key_float sort_by y <=? key_float sort_by x)%float = true) down.
Proof.
  intros Hs Hn.
  exists (psort (sort_key sort_by) (Py.values data)),
         (rev (psort (sort_key sort_by) (rev (Py.values data)))).
  assert (Hr : Forall (numkey (sort_key sort_by)) (rev (Py.values data)))
    by (apply (Permutation_Forall (Permutation_rev _)), Hn).
  assert (Pu : Permutation (psort (sort_key sort_by) (Py.values data)) (Py.values data))
    by apply psort_perm.
  assert (Pd : Permutation (rev (psort (sort_key sort_by) (rev (Py.values data))))
                 (Py.values data)).
  { rewrite <- Permutation_rev, psort_perm. apply Permutation_sym, Permutation_rev. }
  split; [now rewrite (sort_patients_numeric data sort_by "asc" Hs eq_refl Hn)|].
  split; [now rewrite (sort_patients_numeric data sort_by "desc" Hs eq_refl Hn)|].
  split; [exact Pu|]. split; [exact Pd|]. split.
  - apply StronglySorted_weaken
      with (P := numkey (sort_key sort_by))
           (R := fun x y => ltk (sort_key sort_by) y x = false).
    + intros x y Hx Hy Hxy. unfold key_float, ltk in *.
      apply ltb_false_leb; trivial; now apply numkey_numeric.
    + apply (Permutation_Forall (Permutation_sym Pu)), Hn.
    + now apply psort_sorted.
  - apply StronglySorted_weaken
      with (P := numkey (sort_key sort_by))
           (R := fun x y => ltk (sort_key sort_by) x y = false).
    + intros x y Hx Hy Hxy. unfold key_float, ltk in *.
      apply ltb_false_leb; trivial; now apply numkey_numeric.
    + apply (Permutation_Forall (Permutation_sym Pd)), Hn.
    + apply (StronglySorted_rev (fun x y => ltk (sort_key sort_by) y x = false)).
      now apply psort_sorted.
Qed.

Lemma sort_returns_all_in_order_witness :
  exists up down,
    sort_patients "height" "asc" (Some [("P001", stored_P001); ("P004", keyed_P004)])
    = (Ok (Value (Sequence up)), Some [("P001", stored_P001); ("P004", keyed_P004)])
    /\ sort_patients "height" "desc" (Some [("P001", stored_P001); ("P004", keyed_P004)])
       = (Ok (Value (Sequence down)), Some [("P001", stored_P001); ("P004", keyed_P004)])
    /\ Permutation up [stored_P001; keyed_P004].
Proof.
  assert (Hn : numeric_keys "height" [("P001", stored_P001); ("P004", keyed_P004)])
    by (repeat constructor).
  destruct (sort_returns_all_in_order [("P001", stored_P001); ("P004", keyed_P004)]
              "height" eq_refl Hn) as (up & down & Hu & Hd & Pu & _).
  exists up, down. split; [exact Hu|]. split; [exact Hd | exact Pu].
Defined.

(** X12: a [null] under the sort field makes a valid sort request fail with
    a TypeError as soon as the collection has two records, in either order;
    a collection of one record or none is returned as it is, whatever its
    records hold. The file is untouched in both cases. *)
Theorem sort_null_key (data : patients) (sort_by order : string) :
  str_in sort_by valid_fields = true ->
  str_in order ["asc"; "desc"] = true ->
  ((exists x, In x (Py.values data) /\ num_cell x sort_by = Null) ->
   (2 <= List.length data)%nat ->
   sort_patients sort_by order (Some data) = (Raise TypeError, Some data))
  /\ ((List.length data <= 1)%nat ->
      sort_patients sort_by order (Some data)
      = (Ok (Value (Sequence (Py.values data))), Some data)).
Proof.
  intros Hs Ho. split.
  - intros (x & Hin & Hx) Hlen.
    rewrite (sort_patients_valid data sort_by order Hs Ho).
    rewrite (sorted_None (fun x => get_num x sort_by) (Py.values data) x); trivial.
    + unfold get_num. now rewrite Hx.
    + unfold Py.values. now rewrite length_map.
  - intros Hlen.
    rewrite (sort_patients_valid data sort_by order Hs Ho).
    rewrite sorted_short; [reflexivity|].
    unfold Py.values. now rewrite length_map.
Qed.

Lemma sort_null_key_witness :
  sort_patients "bmi" "asc"
    (Some [("P001", stored_P001);
           ("P005", mk_pdict Absent (Has "Omar") (Has "Kochi") (Has 33%Z) (Has "male")
                      (Has 1.7%float) (Has 70%float) Null Null)])
  = (Raise TypeError,
     Some [("P001", stored_P001);
           ("P005", mk_pdict Absent (Has "Omar") (Has "Kochi") (Has 33%Z) (Has "male")
                      (Has 1.7%float) (Has 70%float) Null Null)]).
Proof.
  apply (sort_null_key
           [("P001", stored_P001);
            ("P005", mk_pdict Absent (Has "Omar") (Has "Kochi") (Has 33%Z) (Has "male")
                       (Has 1.7%float) (Has 70%float) Null Null)] "bmi" "asc" eq_refl eq_refl).
  - eexists. split; [right; left; reflexivity | reflexivity].
  - simpl. lia.
Defined.

(** *** More on the models *)

(** X13: the verdict is read off the bmi exactly: "Underweight" if and only
    if the bmi is below 18.5, "Normal weight" if and only if it is from 18.5
    and below 25, "Overweight" if and only if it is from 25 and below 30,
    and "Obese" if and only if it is not below 30, which is also what a bmi
    that is not a number gets. *)
Theorem verdict_exactly {L : Libm} (p : Patient.t) (b : float) (v : string) :
  Patient.bmi p = Ok b ->
  Patient.verdict p = Ok v ->
  (v = "Underweight" <-> (b <? 18.5)%float = true)
  /\ (v = "Normal weight" <-> (18.5 <=? b)%float = true /\ (b <? 25)%float = true)
  /\ (v = "Overweight" <-> (25 <=? b)%float = true /\ (b <? 30)%float = true)
  /\ (v = "Obese" <-> (b <? 30)%float = false)
  /\ (is_nan b = true -> v = "Obese").
Proof.
  intros Hb Hv. unfold Patient.verdict in Hv. rewrite Hb in Hv. simpl in Hv.
  assert (A1 : (b <? 18.5)%float = true -> (b <? 25)%float = true)
    by (intros H; now apply ltb_trans with (b := 18.5%float)).
  assert (A2 : (b <? 25)%float = true -> (b <? 30)%float = true)
    by (intros H; now apply ltb_trans with (b := 25%float)).
  assert (A3 : (18.5 <=? b)%float = true -> (b <? 18.5)%float = false)
    by apply leb_ltb_false.
  assert (A4 : (25 <=? b)%float = true -> (b <? 25)%float = false)
    by apply leb_ltb_false.
  assert (A5 : (b <? 18.5)%float = false -> (b <? 30)%float = true ->
               (18.5 <=? b)%float = true).
  { intros H H'. apply ltb_numeric in H'. now apply ltb_false_leb. }
  assert (A6 : (b <? 25)%float = false -> (b <? 30)%float = true ->
               (25 <=? b)%float = true).
  { intros H H'. apply ltb_numeric in H'. now apply ltb_false_leb. }
  assert (A7 : is_nan b = true -> (b <? 30)%float = false).
  { intros H. destruct (b <? 30)%float eqn:E; [|reflexivity].
    apply ltb_numeric in E. destruct E as [E _]. unfold numeric in E. congruence. }
  destruct (b <? 18.5)%float, (18.5 <=? b)%float, (b <? 25)%float, (25 <=? b)%float,
    (b <? 30)%float; simpl in Hv; injection Hv as <-;
    repeat split; intros; try discriminate; try reflexivity;
    try (destruct H; discriminate);
    try (specialize (A1 eq_refl); discriminate);
    try (specialize (A2 eq_refl); discriminate);
    try (specialize (A3 eq_refl); discriminate);
    try (specialize (A4 eq_refl); discriminate);
    try (specialize (A5 eq_refl eq_refl); discriminate);
    try (specialize (A6 eq_refl eq_refl); discriminate);
    try (specialize (A7 H); discriminate).
Qed.

Lemma verdict_exactly_witness :
  Patient.verdict (L := exact_libm) (Patient.mk "P006" "Inf" "Pune" 30 other infinity infinity)
  = Ok "Obese".
Proof.
  destruct (verdict_exactly (L := exact_libm)
              (Patient.mk "P006" "Inf" "Pune" 30 other infinity infinity) nan "Obese"
              eq_refl eq_refl) as (_ & _ & _ & _ & H).
  reflexivity.
Defined.

(** X14: every field value the Patient model accepts, the Patient_update
    model accepts too, and an update whose payload carries all six fields of
    a valid Patient input replaces the stored record whatever it held (when
    it has no [id] entry of its own and the bmi of the input can be
    computed): the answer is 200 and the file holds, in the record's place,
    the dump of the payload's patient under the id of the path. *)
Theorem full_payload_replaces {L : Libm} (body : pdict) (p : Patient.t)
    (data : patients) (patient_id : string) (existing r : pdict) :
  Patient.validate body = Ok p ->
  Py.get patient_id data = Some existing ->
  k_id existing = Absent ->
  Patient.model_dump
    (Patient.mk patient_id (Patient.name p) (Patient.city p) (Patient.age p)
       (Patient.gender p) (Patient.height p) (Patient.weight p)) = Ok r ->
  Patient_update.valid (full_update p) = true
  /\ Patient.validate (Patient.with_id patient_id (merge (full_update p) existing))
     = Ok (Patient.mk patient_id (Patient.name p) (Patient.city p) (Patient.age p)
             (Patient.gender p) (Patient.height p) (Patient.weight p))
  /\ PUT_edit patient_id (full_update p) (Some data)
     = (Reply 200 (Content (Message "Patient updated successfully")),
        Some (Py.set patient_id r data))
  /\ Py.get patient_id (Py.set patient_id r data) = Some r.
Proof.
  intros Hv Hg Hid Hr. apply validate_inv in Hv.
  destruct Hv as (_ & _ & _ & _ & _ & _ & _ & Ha & Hh & Hw).
  assert (V : Patient_update.valid (full_update p) = true).
  { unfold Patient_update.valid, full_update. simpl.
    rewrite Gender_of_to_string, Hh, Hw.
    destruct Ha as [Ha _]. apply Z.ltb_lt in Ha. now rewrite Ha. }
  assert (M : Patient.validate (Patient.with_id patient_id (merge (full_update p) existing))
              = Ok (Patient.mk patient_id (Patient.name p) (Patient.city p) (Patient.age p)
                      (Patient.gender p) (Patient.height p) (Patient.weight p))).
  { unfold merge, full_update, Patient.with_id. simpl.
    apply validate_of_fields; auto using Gender_of_to_string. }
  split; [exact V|]. split; [exact M|].
  split; [|apply get_set_same].
  now apply update_succeeds with (existing := existing)
    (p := Patient.mk patient_id (Patient.name p) (Patient.city p) (Patient.age p)
            (Patient.gender p) (Patient.height p) (Patient.weight p)).
Qed.

Lemma full_payload_replaces_witness :
  PUT_edit "P004" (full_update patient_P001) (Some [("P004", keyed_P004)])
  = (Reply 200 (Content (Message "Patient updated successfully")),
     Some [("P004",
            mk_pdict (Has "P004") (Has "Asha") (Has "Pune") (Has 30%Z) (Has "female")
              (Has 1.8%float) (Has 72%float) (Has 22.22%float) (Has "Normal weight"))]).
Proof.
  apply (full_payload_replaces (L := exact_libm) request_P001 patient_P001
           [("P004", keyed_P004)] "P004" keyed_P004); reflexivity.
Defined.

(** ** The helpers of the dashboard *)

(** X15: the dashboard's helpers against the service: [calculate_bmi] gives
    the bmi the service derives, and [get_bmi_verdict] gives the service's
    verdict except in the normal range, where the service says "Normal
    weight" and the dashboard "Normal"; the dashboard never says "Normal
    weight". *)
Theorem dashboard_labels {L : Libm} (p : Patient.t) (b : float) (v : string) :
  Patient.bmi p = Ok b ->
  Patient.verdict p = Ok v ->
  App.calculate_bmi (Patient.height p) (Patient.weight p) = Ok b
  /\ (v = "Normal weight" -> App.get_bmi_verdict b = "Normal")
  /\ (v <> "Normal weight" -> App.get_bmi_verdict b = v)
  /\ App.get_bmi_verdict b <> "Normal weight".
Proof.
  intros Hb Hv. split; [exact Hb|].
  unfold Patient.verdict in Hv. rewrite Hb in Hv. simpl in Hv.
  unfold App.get_bmi_verdict.
  destruct (b <? 18.5)%float; [|destruct (_ && _)%bool; [|destruct (_ && _)%bool]];
    injection Hv as <-; repeat split; intros; try reflexivity; try discriminate;
    now elim H.
Qed.

Lemma dashboard_labels_witness :
  App.get_bmi_verdict 22.22 = "Normal".
Proof.
  destruct (dashboard_labels (L := exact_libm) patient_P001 22.22%float "Normal weight"
              eq_refl eq_refl) as (_ & H & _).
  apply H. reflexivity.
Defined.

